(** * MESAI kiosk: session state machine, rate accounting and barcode capture

    A shallow embedding of [src/app/kiosk2/KioskClient.tsx].

    - JavaScript strings are sequences of UTF-16 code units ([list N]).
    - Timestamps ([Date.now()]) and the produced counter are integers held in
      doubles; they are modelled as [Z], exact below 2^53.
    - The rate is the only fractional quantity.  It is modelled by an exact
      rational extended with the three non-finite doubles, so that a division
      by zero shows as [PosInf], [NegInf] or [NaN]; rounding of the quotient
      and overflow are not modelled, so a rate whose exact value lies within
      a rounding error of a half-integer may print one off.  The figures
      evaluated below are away from such values.
    - The component's hooks, refs and the browser resources they point to
      (camera streams, animation-frame requests, alert boxes) form one record
      that every handler transforms.  A handler runs to completion: each
      [await] of [openScanner] and of its sampling loop is taken to resolve
      before the next event is handled. *)

From Stdlib Require Import ZArith QArith Qcanon Qround Lia DecimalString.
From Stdlib Require Import DecimalFacts DecimalPos DecimalZ.
From stdpp Require Import gmap list numbers strings.

Open Scope Z_scope.

#[local] Set Warnings "-clear-no-such-hyp".

(** ** JavaScript strings *)

Definition jsstring := list N.

(** An ASCII literal as code units. *)
Definition lit (s : string) : jsstring :=
  (fun a => Ascii.N_of_ascii a) <$> String.list_ascii_of_string s.

(** ECMAScript [WhiteSpace] and [LineTerminator] code points, the ones
    [String.prototype.trim] strips. *)
Definition isWhiteSpace (c : N) : bool :=
  ((9 <=? c) && (c <=? 13) || (c =? 32) || (c =? 160) || (c =? 5760)
   || (8192 <=? c) && (c <=? 8202) || (c =? 8232) || (c =? 8233)
   || (c =? 8239) || (c =? 8287) || (c =? 12288) || (c =? 65279))%N.

Fixpoint trimStart (s : jsstring) : jsstring :=
  match s with
  | c :: s' => if isWhiteSpace c then trimStart s' else s
  | [] => []
  end.

Definition trimEnd (s : jsstring) : jsstring := rev (trimStart (rev s)).

Definition trim (s : jsstring) : jsstring := trimEnd (trimStart s).

(** A code as [trim] leaves it when something is left: it neither starts
    nor ends with white space. *)
Definition isBare (s : jsstring) : bool :=
  match s, rev s with
  | c :: _, d :: _ => negb (isWhiteSpace c) && negb (isWhiteSpace d)
  | _, _ => false
  end.

(** [String.prototype.toLowerCase] on the ASCII range.  The result is only
    ever compared with the ASCII literals ['ahmet'] and ['lider'].  Outside
    A-Z the full mapping produces an ASCII letter in two cases only: U+212A
    gives k, which neither literal contains, and U+0130 gives i followed by
    U+0307.  A string with a code unit outside ASCII thus never lowers to
    one of the literals, with the full mapping as with this one, and the
    comparisons come out the same. *)
Definition toLowerCase (s : jsstring) : jsstring :=
  (fun c => if (65 <=? c) && (c <=? 90) then c + 32 else c)%N <$> s.

(** [n.toString()] for an integer-valued number. *)
Definition toString (n : Z) : jsstring :=
  lit (NilZero.string_of_int (Z.to_int n)).

(** [s.padStart(2, '0')]. *)
Definition padStart2 (s : jsstring) : jsstring :=
  replicate (2 - length s)%nat 48%N ++ s.

(** ** JavaScript numbers used for the rate *)

Inductive JsNum :=
| Fin (q : Qc)
| PosInf
| NegInf
| NaN.

(** [x / y] on finite operands. *)
Definition js_div (x y : Qc) : JsNum :=
  if decide (y = 0%Qc) then
    if decide (x = 0%Qc) then NaN
    else if decide (0 < x)%Qc then PosInf else NegInf
  else Fin (x / y)%Qc.

Definition ofZ (n : Z) : Qc := Q2Qc (inject_Z n).

(** [Math.round]: the nearest integer, halves towards +infinity. *)
Definition Math_round (x : JsNum) : JsNum :=
  match x with
  | Fin q => Fin (ofZ (Qfloor (q + Q2Qc (1 # 2))%Qc))
  | _ => x
  end.

Definition isFinite (x : JsNum) : bool :=
  match x with Fin _ => true | _ => false end.

(** ** Data model *)

Inductive DowntimeReason := Break | Fault.

Record WorkOrder := {
  wo_id : jsstring;
  wo_wo : jsstring;
  wo_model : jsstring;
  wo_operation : jsstring;
  wo_color : jsstring;
  wo_size : jsstring;
  target_pph : Z
}.

Inductive SessionState :=
| Idle
| Authenticated (operatorId operatorName : jsstring)
| Running (operatorId operatorName : jsstring) (wo : WorkOrder)
    (startTs produced : Z)
| Paused (operatorId operatorName : jsstring) (wo : WorkOrder)
    (startTs produced : Z) (reason : DowntimeReason) (pauseTs : Z).

Inductive Phase := idle | authenticated | running | paused.

Definition phase (s : SessionState) : Phase :=
  match s with
  | Idle => idle
  | Authenticated _ _ => authenticated
  | Running _ _ _ _ _ => running
  | Paused _ _ _ _ _ _ _ => paused
  end.

Record Operator := { op_id : jsstring; op_name : jsstring }.

Definition demoLookupOperator (rfid : jsstring) : option Operator :=
  let cleaned := trim rfid in
  match cleaned with
  | [] => None
  | _ =>
    if bool_decide (cleaned = lit "000000001")
       || bool_decide (toLowerCase cleaned = lit "ahmet")
    then Some {| op_id := lit "op-1"; op_name := lit "Ahmet" |}
    else if bool_decide (cleaned = lit "000000002")
            || bool_decide (toLowerCase cleaned = lit "lider")
    then Some {| op_id := lit "op-2"; op_name := lit "Lider" |}
    else Some {| op_id := lit "op-x";
                 op_name := lit "Operat" ++ [246%N] ++ lit "r (" ++ cleaned ++ lit ")" |}
  end.

Definition pad2 (n : Z) : jsstring := padStart2 (toString n).

(** The hours, minutes and seconds that [formatHMS] prints. *)
Definition hmsParts (ms : Z) : Z * Z * Z :=
  let s := Z.max 0 (ms / 1000) in
  let hh := s / 3600 in
  let mm := Z.rem s 3600 / 60 in
  let ss := Z.rem s 60 in
  (hh, mm, ss).

Definition formatHMS (ms : Z) : jsstring :=
  let '(hh, mm, ss) := hmsParts ms in
  pad2 hh ++ lit ":" ++ pad2 mm ++ lit ":" ++ pad2 ss.

(** ** The component: hooks, refs, and the browser resources behind them *)

Record RunningInfo := { elapsed : Z; pph : JsNum }.

(** What the closing [alert] interpolates. *)
Record Summary := {
  sum_opName : jsstring;
  sum_wo : jsstring;
  sum_produced : Z;
  sum_elapsed : jsstring;
  sum_pph : JsNum
}.

Record Kiosk := {
  (* useState *)
  rfidBuffer : jsstring;
  selectedWO : option WorkOrder;
  state : SessionState;
  tick : Z;
  scanOpen : bool;
  scanError : option jsstring;
  (* useRef *)
  streamRef : option positive;
  rafRef : option positive;
  (* useMemo(..., [state, tick]): the value of the latest render, and whether
     a dependency was replaced since *)
  runningInfo : RunningInfo;
  memoStale : bool;
  (* browser: streams whose tracks are live, animation-frame requests that
     were neither run nor cancelled, the next fresh handle, alerts shown *)
  liveStreams : gset positive;
  pendingFrames : gset positive;
  nextHandle : positive;
  alerts : list Summary
}.

Definition setRfidBuffer (v : jsstring) (k : Kiosk) : Kiosk :=
  Build_Kiosk v (selectedWO k) (state k) (tick k) (scanOpen k) (scanError k)
    (streamRef k) (rafRef k) (runningInfo k) (memoStale k)
    (liveStreams k) (pendingFrames k) (nextHandle k) (alerts k).

Definition setSelectedWO (v : option WorkOrder) (k : Kiosk) : Kiosk :=
  Build_Kiosk (rfidBuffer k) v (state k) (tick k) (scanOpen k) (scanError k)
    (streamRef k) (rafRef k) (runningInfo k) (memoStale k)
    (liveStreams k) (pendingFrames k) (nextHandle k) (alerts k).

(** Every [setState] call of the file passes a fresh object, so it replaces
    a dependency of the memo. *)
Definition setState (v : SessionState) (k : Kiosk) : Kiosk :=
  Build_Kiosk (rfidBuffer k) (selectedWO k) v (tick k) (scanOpen k) (scanError k)
    (streamRef k) (rafRef k) (runningInfo k) true
    (liveStreams k) (pendingFrames k) (nextHandle k) (alerts k).

Definition setTick (v : Z) (k : Kiosk) : Kiosk :=
  Build_Kiosk (rfidBuffer k) (selectedWO k) (state k) v (scanOpen k) (scanError k)
    (streamRef k) (rafRef k) (runningInfo k) true
    (liveStreams k) (pendingFrames k) (nextHandle k) (alerts k).

Definition setScanOpen (v : bool) (k : Kiosk) : Kiosk :=
  Build_Kiosk (rfidBuffer k) (selectedWO k) (state k) (tick k) v (scanError k)
    (streamRef k) (rafRef k) (runningInfo k) (memoStale k)
    (liveStreams k) (pendingFrames k) (nextHandle k) (alerts k).

Definition setScanError (v : option jsstring) (k : Kiosk) : Kiosk :=
  Build_Kiosk (rfidBuffer k) (selectedWO k) (state k) (tick k) (scanOpen k) v
    (streamRef k) (rafRef k) (runningInfo k) (memoStale k)
    (liveStreams k) (pendingFrames k) (nextHandle k) (alerts k).

Definition setStreamRef (v : option positive) (k : Kiosk) : Kiosk :=
  Build_Kiosk (rfidBuffer k) (selectedWO k) (state k) (tick k) (scanOpen k)
    (scanError k) v (rafRef k) (runningInfo k) (memoStale k)
    (liveStreams k) (pendingFrames k) (nextHandle k) (alerts k).

Definition setRafRef (v : option positive) (k : Kiosk) : Kiosk :=
  Build_Kiosk (rfidBuffer k) (selectedWO k) (state k) (tick k) (scanOpen k)
    (scanError k) (streamRef k) v (runningInfo k) (memoStale k)
    (liveStreams k) (pendingFrames k) (nextHandle k) (alerts k).

Definition setMemo (v : RunningInfo) (k : Kiosk) : Kiosk :=
  Build_Kiosk (rfidBuffer k) (selectedWO k) (state k) (tick k) (scanOpen k)
    (scanError k) (streamRef k) (rafRef k) v false
    (liveStreams k) (pendingFrames k) (nextHandle k) (alerts k).

Definition setLiveStreams (v : gset positive) (k : Kiosk) : Kiosk :=
  Build_Kiosk (rfidBuffer k) (selectedWO k) (state k) (tick k) (scanOpen k)
    (scanError k) (streamRef k) (rafRef k) (runningInfo k) (memoStale k)
    v (pendingFrames k) (nextHandle k) (alerts k).

Definition setPendingFrames (v : gset positive) (k : Kiosk) : Kiosk :=
  Build_Kiosk (rfidBuffer k) (selectedWO k) (state k) (tick k) (scanOpen k)
    (scanError k) (streamRef k) (rafRef k) (runningInfo k) (memoStale k)
    (liveStreams k) v (nextHandle k) (alerts k).

Definition setNextHandle (v : positive) (k : Kiosk) : Kiosk :=
  Build_Kiosk (rfidBuffer k) (selectedWO k) (state k) (tick k) (scanOpen k)
    (scanError k) (streamRef k) (rafRef k) (runningInfo k) (memoStale k)
    (liveStreams k) (pendingFrames k) v (alerts k).

Definition alert (v : Summary) (k : Kiosk) : Kiosk :=
  Build_Kiosk (rfidBuffer k) (selectedWO k) (state k) (tick k) (scanOpen k)
    (scanError k) (streamRef k) (rafRef k) (runningInfo k) (memoStale k)
    (liveStreams k) (pendingFrames k) (nextHandle k) (alerts k ++ [v]).

(** The component as first mounted. *)
Definition initial : Kiosk :=
  {| rfidBuffer := []; selectedWO := None; state := Idle; tick := 0;
     scanOpen := false; scanError := None; streamRef := None; rafRef := None;
     runningInfo := {| elapsed := 0; pph := Fin 0 |}; memoStale := false;
     liveStreams := ∅; pendingFrames := ∅; nextHandle := 1%positive;
     alerts := [] |}.

(** *** Browser primitives *)

Definition cancelAnimationFrame (f : positive) (k : Kiosk) : Kiosk :=
  setPendingFrames (pendingFrames k ∖ {[f]}) k.

(** [requestAnimationFrame(loop)]: a fresh non-zero handle, now pending. *)
Definition requestAnimationFrame (k : Kiosk) : positive * Kiosk :=
  let f := nextHandle k in
  (f, setNextHandle (Pos.succ f) (setPendingFrames ({[f]} ∪ pendingFrames k) k)).

(** [stream.getTracks().forEach(t => t.stop())]. *)
Definition stopTracks (s : positive) (k : Kiosk) : Kiosk :=
  setLiveStreams (liveStreams k ∖ {[s]}) k.

(** A granted [getUserMedia]: a fresh stream with live tracks. *)
Definition getUserMedia (k : Kiosk) : positive * Kiosk :=
  let s := nextHandle k in
  (s, setNextHandle (Pos.succ s) (setLiveStreams ({[s]} ∪ liveStreams k) k)).

(** *** Scanner *)

Definition stopScanner (k : Kiosk) : Kiosk :=
  let k := match rafRef k with
           | Some f => cancelAnimationFrame f k
           | None => k
           end in
  let k := setRafRef None k in
  let k := match streamRef k with
           | Some s => setStreamRef None (stopTracks s k)
           | None => k
           end in
  setScanOpen false k.

Definition loginWithCode (code : jsstring) (k : Kiosk) : Kiosk :=
  let op := demoLookupOperator code in
  let k := setRfidBuffer [] k in
  match op with
  | None => k
  | Some op => setState (Authenticated (op_id op) (op_name op)) k
  end.

(** How a promise awaited by [openScanner] settles; a rejection carries the
    thrown value's [message], if it has one. *)
Inductive Settled := Resolves | Rejects (message : option jsstring).

(** What [openScanner] finds in the browser. *)
Record ScanEnv := {
  hasGetUserMedia : bool;      (* 'mediaDevices' in navigator && getUserMedia *)
  cameraGrant : Settled;       (* navigator.mediaDevices.getUserMedia(...) *)
  videoPresent : bool;         (* videoRef.current *)
  videoPlay : Settled;         (* video.play() *)
  hasBarcodeDetector : bool    (* window.BarcodeDetector *)
}.

(** The [catch] clause: [setScanError(e?.message || 'Scanner açılamadı.')]. *)
Definition catchScanError (message : option jsstring) (k : Kiosk) : Kiosk :=
  let shown := match message with
               | Some (c :: m) => c :: m
               | _ => lit "Scanner a" ++ [231%N; 305%N] ++ lit "lamad"
                        ++ [305%N] ++ lit "."
               end in
  setScanError (Some shown) k.

Definition openScanner (env : ScanEnv) (k : Kiosk) : Kiosk :=
  let k := setScanError None k in
  let k := setScanOpen true k in
  if negb (hasGetUserMedia env) then
    catchScanError
      (Some (lit "Kamera eri" ++ [351%N] ++ lit "imi desteklenmiyor.")) k
  else
    match cameraGrant env with
    | Rejects m => catchScanError m k
    | Resolves =>
      let '(stream, k) := getUserMedia k in
      let k := setStreamRef (Some stream) k in
      if negb (videoPresent env) then
        catchScanError
          (Some (lit "Video elementi bulunamad" ++ [305%N] ++ lit ".")) k
      else
        match videoPlay env with
        | Rejects m => catchScanError m k
        | Resolves =>
          if negb (hasBarcodeDetector env) then
            catchScanError
              (Some (lit "BarcodeDetector desteklenmiyor. (Android Chrome g"
                     ++ [252%N] ++ lit "ncel olmal" ++ [305%N] ++ lit ")")) k
          else
            let '(f, k) := requestAnimationFrame k in
            setRafRef (Some f) k
        end
    end.

(** How [detector.detect(video)] settles on one frame: it throws, or yields
    barcodes whose [rawValue] may be missing. *)
Inductive Detection :=
| DetectThrows
| Detected (barcodes : list (option jsstring)).

(** One run of the sampling [loop]. *)
Definition loop (d : Detection) (k : Kiosk) : Kiosk :=
  let reschedule k :=
    let '(f, k) := requestAnimationFrame k in setRafRef (Some f) k in
  match d with
  | Detected (Some rawValue :: _) =>
    match trim rawValue with
    | [] => reschedule k
    | raw => loginWithCode raw (stopScanner k)
    end
  | _ => reschedule k
  end.

(** The browser runs a pending animation-frame request; one that was
    cancelled, or never made, does not run. *)
Definition animationFrame (f : positive) (d : Detection) (k : Kiosk) : Kiosk :=
  if bool_decide (f ∈ pendingFrames k)
  then loop d (setPendingFrames (pendingFrames k ∖ {[f]}) k)
  else k.

(** *** Rate *)

(** The body of the [runningInfo] memo; [now] is the render's [Date.now()]. *)
Definition computeRunningInfo (now : Z) (st : SessionState) : RunningInfo :=
  let info (elapsed produced : Z) :=
    let hours := (ofZ elapsed / ofZ 3600000)%Qc in
    let pph := if decide (0 < hours)%Qc
               then js_div (ofZ produced) hours
               else Fin 0%Qc in
    {| elapsed := elapsed; pph := pph |} in
  match st with
  | Running _ _ _ startTs produced => info (now - startTs) produced
  | Paused _ _ _ startTs produced _ pauseTs => info (pauseTs - startTs) produced
  | _ => {| elapsed := 0; pph := Fin 0%Qc |}
  end.

(** A render: the memo is recomputed when [state] or [tick] was replaced. *)
Definition render (now : Z) (k : Kiosk) : Kiosk :=
  if memoStale k then setMemo (computeRunningInfo now (state k)) k else k.

(** *** Session handlers *)

Definition resetToIdle (k : Kiosk) : Kiosk :=
  let k := stopScanner k in
  let k := setSelectedWO None k in
  let k := setRfidBuffer [] k in
  setState Idle k.

Definition onRFIDEnter (k : Kiosk) : Kiosk :=
  let op := demoLookupOperator (rfidBuffer k) in
  let k := setRfidBuffer [] k in
  match op with
  | None => k
  | Some op => setState (Authenticated (op_id op) (op_name op)) k
  end.

Definition startWork (now : Z) (k : Kiosk) : Kiosk :=
  match selectedWO k with
  | None => k
  | Some w =>
    match state k with
    | Authenticated operatorId operatorName =>
      setState (Running operatorId operatorName w now 0) k
    | _ => k
    end
  end.

Definition pause (reason : DowntimeReason) (now : Z) (k : Kiosk) : Kiosk :=
  match state k with
  | Running operatorId operatorName w startTs produced =>
    setState (Paused operatorId operatorName w startTs produced reason now) k
  | _ => k
  end.

Definition resume (now : Z) (k : Kiosk) : Kiosk :=
  match state k with
  | Paused operatorId operatorName w startTs produced _ pauseTs =>
    let pausedDuration := now - pauseTs in
    setState
      (Running operatorId operatorName w (startTs + pausedDuration) produced) k
  | _ => k
  end.

Definition addPiece (k : Kiosk) : Kiosk :=
  match state k with
  | Running operatorId operatorName w startTs produced =>
    setState (Running operatorId operatorName w startTs (produced + 1)) k
  | _ => k
  end.

Definition finishWork (now : Z) (k : Kiosk) : Kiosk :=
  let finish opName w produced elapsedMs :=
    let k := alert {| sum_opName := opName;
                      sum_wo := wo_wo w;
                      sum_produced := produced;
                      sum_elapsed := formatHMS elapsedMs;
                      sum_pph := Math_round (pph (runningInfo k)) |} k in
    resetToIdle k in
  match state k with
  | Running _ operatorName w startTs produced =>
    finish operatorName w produced (now - startTs)
  | Paused _ operatorName w startTs produced _ pauseTs =>
    finish operatorName w produced (pauseTs - startTs)
  | _ => k
  end.

(** *** Events *)

(** What the rendered tree and the effects can make the component do. *)
Inductive Action :=
| Change (value : jsstring)      (* onChange of an input bound to rfidBuffer *)
| KeyEnter                       (* Enter in the hidden input *)
| ScanBarcode (env : ScanEnv)    (* a control wired to openScanner *)
| CloseScanner                   (* Kapat *)
| AnimationFrame (f : positive) (d : Detection)
| PickWO (w : WorkOrder)
| Start
| Pause (reason : DowntimeReason)
| Resume
| Piece
| Finish
| Logout
| Tick
| Unmount.

Definition handle (a : Action) (now : Z) (k : Kiosk) : Kiosk :=
  match a with
  | Change v => setRfidBuffer v k
  | KeyEnter => onRFIDEnter k
  | ScanBarcode env => openScanner env k
  | CloseScanner => stopScanner k
  | AnimationFrame f d => animationFrame f d k
  | PickWO w =>
    (* the work-order buttons are disabled unless canPickWO *)
    match state k with
    | Authenticated _ _ => setSelectedWO (Some w) k
    | _ => k
    end
  | Start => startWork now k
  | Pause reason => pause reason now k
  | Resume => resume now k
  | Piece => addPiece k
  | Finish => finishWork now k
  | Logout => resetToIdle k
  | Tick => setTick (tick k + 1) k
  | Unmount => stopScanner k
  end.

(** An event at clock reading [now], followed by the render it causes. *)
Definition step (k : Kiosk) (e : Action * Z) : Kiosk :=
  render e.2 (handle e.1 e.2 k).

Definition run (k : Kiosk) (es : list (Action * Z)) : Kiosk :=
  foldl step k es.

(** ** Reading a session *)

Definition producedOf (st : SessionState) : option Z :=
  match st with
  | Running _ _ _ _ produced | Paused _ _ _ _ produced _ _ => Some produced
  | _ => None
  end.

Definition startTsOf (st : SessionState) : option Z :=
  match st with
  | Running _ _ _ startTs _ | Paused _ _ _ startTs _ _ _ => Some startTs
  | _ => None
  end.

(** The end time [finishWork] measures to, and the elapsed time it prints. *)
Definition finishElapsed (now : Z) (st : SessionState) : option Z :=
  match st with
  | Running _ _ _ startTs _ => Some (now - startTs)
  | Paused _ _ _ startTs _ _ pauseTs => Some (pauseTs - startTs)
  | _ => None
  end.

Definition pausedSince (st : SessionState) : option Z :=
  match st with
  | Paused _ _ _ _ _ _ pauseTs => Some pauseTs
  | _ => None
  end.

(** Events that leave a running or paused session in place. *)
Definition keepsSession (a : Action) : bool :=
  match a with
  | KeyEnter | AnimationFrame _ _ | Finish | Logout => false
  | _ => true
  end.

(** Wall-clock accounting, independent of the handlers: the time a session
    spends paused along a timed trace that is closed at [tend]; [since] is
    the reading at which the pause in progress began, if there is one. *)
Fixpoint timePaused (since : option Z) (es : list (Action * Z)) (tend : Z) : Z :=
  match es with
  | [] => match since with Some p => tend - p | None => 0 end
  | (Pause _, t) :: es' =>
    match since with
    | None => timePaused (Some t) es' tend
    | Some _ => timePaused since es' tend
    end
  | (Resume, t) :: es' =>
    match since with
    | Some p => (t - p) + timePaused None es' tend
    | None => timePaused None es' tend
    end
  | _ :: es' => timePaused since es' tend
  end.

(** The resource a ref points to, as a set. *)
Definition held (r : option positive) : gset positive :=
  match r with Some x => {[x]} | None => ∅ end.

(** A browser where the camera and the decoder are available. *)
Definition envOk : ScanEnv :=
  {| hasGetUserMedia := true; cameraGrant := Resolves; videoPresent := true;
     videoPlay := Resolves; hasBarcodeDetector := true |}.

(** A browser that grants the camera and lacks [BarcodeDetector]. *)
Definition envNoDetector : ScanEnv :=
  {| hasGetUserMedia := true; cameraGrant := Resolves; videoPresent := true;
     videoPlay := Resolves; hasBarcodeDetector := false |}.

Definition WO1001 : WorkOrder :=
  {| wo_id := lit "1"; wo_wo := lit "WO-1001"; wo_model := lit "LACOSTE POLO";
     wo_operation := lit "Diki" ++ [351%N]; wo_color := lit "Lacivert";
     wo_size := lit "M"; target_pph := 45 |}.

Definition operatorNameOf (st : SessionState) : option jsstring :=
  match st with
  | Idle => None
  | Authenticated _ operatorName | Running _ operatorName _ _ _
  | Paused _ operatorName _ _ _ _ _ => Some operatorName
  end.

(** ** Sample sessions *)

(** Ahmet logs in, picks WO-1001, starts at 1 s and books one piece; then a
    second card is read into the hidden input. *)
Definition midSession : Kiosk :=
  run initial
    [(Change (lit "ahmet"), 0); (KeyEnter, 10); (PickWO WO1001, 20);
     (Start, 1000); (Piece, 2000); (Change (lit "000000002"), 3000)].

(** Ten pieces in the first minute; the last render is the tick at 60 s. *)
Definition minuteIn : Kiosk :=
  run initial
    ([(Change (lit "000000001"), -20); (KeyEnter, -10); (PickWO WO1001, -5);
      (Start, 0)]
     ++ ((λ i : Z, (Piece, 5000 * i)) <$> [1; 2; 3; 4; 5; 6; 7; 8; 9; 10])
     ++ [(Tick, 60000)]).

(** Ahmet is logged in and has picked WO-1001. *)
Definition readyToStart : Kiosk :=
  run initial
    [(Change (lit "000000001"), 0); (KeyEnter, 0); (PickWO WO1001, 0)].

(** The scanner dialog is open and sampling. *)
Definition scanning : Kiosk := openScanner envOk initial.

(** Scan Barcode is activated twice in a row with the camera granted, then
    Ahmet logs in from the keyboard. *)
Definition twiceOpened : Kiosk :=
  run initial
    [(ScanBarcode envOk, 0); (ScanBarcode envOk, 100);
     (Change (lit "ahmet"), 200); (KeyEnter, 300)].

(** One piece half a second into a session; no tick has fired since. *)
Definition firstPiece : Kiosk :=
  run initial
    [(Change (lit "000000001"), -20); (KeyEnter, -10); (PickWO WO1001, -5);
     (Start, 0); (Piece, 500)].

(** ** What the rendered tree offers *)

Definition canStart (k : Kiosk) : bool :=
  match state k, selectedWO k with
  | Authenticated _ _, Some _ => true
  | _, _ => false
  end.

(** Whether the control of a session action is rendered and not disabled:
    the production block is rendered while running or paused, with Devam in
    place of Mola while paused, and Çıkış outside Idle.  Actions that are
    not session controls are not judged here. *)
Definition offered (a : Action) (k : Kiosk) : bool :=
  match a, state k with
  | Start, _ => canStart k
  | Piece, Running _ _ _ _ _ => true
  | Pause _, Running _ _ _ _ _ => true
  | Resume, Paused _ _ _ _ _ _ _ => true
  | Finish, (Running _ _ _ _ _ | Paused _ _ _ _ _ _ _) => true
  | Logout, (Authenticated _ _ | Running _ _ _ _ _ | Paused _ _ _ _ _ _ _) =>
    true
  | _, _ => false
  end.

Definition isSessionControl (a : Action) : bool :=
  match a with
  | Start | Piece | Pause _ | Resume | Finish | Logout => true
  | _ => false
  end.

(** ** Reading a session, continued *)

Definition workOrderOf (st : SessionState) : option WorkOrder :=
  match st with
  | Running _ _ w _ _ | Paused _ _ w _ _ _ _ => Some w
  | _ => None
  end.

Definition operatorIdOf (st : SessionState) : option jsstring :=
  match st with
  | Idle => None
  | Authenticated operatorId _ | Running operatorId _ _ _ _
  | Paused operatorId _ _ _ _ _ _ => Some operatorId
  end.

Definition isPaused (st : SessionState) : bool :=
  match st with Paused _ _ _ _ _ _ _ => true | _ => false end.

(** Bookkeeping, independent of the handlers: the pieces booked along a
    trace while the session was not paused. *)
Fixpoint piecesBooked (nowPaused : bool) (es : list (Action * Z)) : Z :=
  match es with
  | [] => 0
  | (Piece, _) :: es' =>
    (if nowPaused then 0 else 1) + piecesBooked nowPaused es'
  | (Pause _, _) :: es' => piecesBooked true es'
  | (Resume, _) :: es' => piecesBooked false es'
  | _ :: es' => piecesBooked nowPaused es'
  end.

(** The clock readings of a trace never go back, starting from [t]. *)
Fixpoint clockMonotone (t : Z) (es : list (Action * Z)) : bool :=
  match es with
  | [] => true
  | e :: es' => (t <=? e.2) && clockMonotone e.2 es'
  end.

(** The reading of the last event of a trace that starts at [t]. *)
Fixpoint lastReading (t : Z) (es : list (Action * Z)) : Z :=
  match es with
  | [] => t
  | e :: es' => lastReading e.2 es'
  end.

(** The time base lies in the past of reading [t]. *)
Definition timeBaseOk (t : Z) (st : SessionState) : Prop :=
  match st with
  | Running _ _ _ startTs _ => startTs ≤ t
  | Paused _ _ _ startTs _ _ pauseTs => startTs ≤ pauseTs ≤ t
  | _ => True
  end.

(** ** Scanner bookkeeping *)

(** Every live stream and every pending frame is the one its ref points
    to, and the refs are empty while the dialog is closed. *)
Definition tracked (k : Kiosk) : Prop :=
  liveStreams k ⊆ held (streamRef k)
  ∧ pendingFrames k ⊆ held (rafRef k)
  ∧ (scanOpen k = false → streamRef k = None ∧ rafRef k = None).

(** Every opening of the trace finds the dialog closed, as the overlay of
    the open dialog arranges for pointer input. *)
Fixpoint opensWhenClosed (k : Kiosk) (es : list (Action * Z)) : bool :=
  match es with
  | [] => true
  | e :: es' =>
    match e.1 with
    | ScanBarcode _ => negb (scanOpen k)
    | _ => true
    end && opensWhenClosed (step k e) es'
  end.

(** All of [openScanner]'s checks pass. *)
Definition envWorks (env : ScanEnv) : bool :=
  hasGetUserMedia env
  && match cameraGrant env with Resolves => true | Rejects _ => false end
  && videoPresent env
  && match videoPlay env with Resolves => true | Rejects _ => false end
  && hasBarcodeDetector env.

(** A sample that does not yield a code: the decoder threw, found nothing,
    or the first barcode has no value or a blank one. *)
Definition yieldsNoCode (d : Detection) : bool :=
  match d with
  | Detected (Some rawValue :: _) =>
    match trim rawValue with [] => true | _ => false end
  | _ => true
  end.

(** * Properties *)

(** ** Strings *)

Lemma trimStart_idem s : trimStart (trimStart s) = trimStart s.
Proof.
  induction s as [|c s IH]; simpl; [done|].
  destruct (isWhiteSpace c) eqn:E; [done|]. simpl. by rewrite E.
Qed.

Lemma trimStart_nil_iff s : trimStart s = [] ↔ forallb isWhiteSpace s = true.
Proof.
  induction s as [|c s IH]; simpl; [done|].
  destruct (isWhiteSpace c); simpl; [done|]. split; discriminate.
Qed.

Lemma trimStart_app_nonws s c t :
  isWhiteSpace c = false → trimStart (s ++ c :: t) = trimStart (s ++ [c]) ++ t.
Proof.
  intros Hc. induction s as [|d s IH]; simpl.
  - by rewrite Hc.
  - destruct (isWhiteSpace d); [done|]. simpl. by rewrite <- app_assoc.
Qed.

Lemma trimStart_snoc_nonws s c :
  isWhiteSpace c = false → ∃ u, trimStart (s ++ [c]) = u ++ [c].
Proof.
  intros Hc. induction s as [|d s [u IH]]; simpl.
  - rewrite Hc. by exists [].
  - destruct (isWhiteSpace d); [by exists u|]. by exists (d :: s).
Qed.

(** Trimming the end keeps a leading non-blank code unit in place. *)
Lemma trimEnd_cons_nonws c s :
  isWhiteSpace c = false → ∃ u, trimEnd (c :: s) = c :: u.
Proof.
  intros Hc. unfold trimEnd. simpl.
  rewrite (trimStart_app_nonws (rev s) c []) by done.
  destruct (trimStart_snoc_nonws (rev s) c Hc) as [u ->].
  rewrite app_nil_r, rev_unit. by eexists.
Qed.

Lemma trimStart_head s c u : trimStart s = c :: u → isWhiteSpace c = false.
Proof.
  induction s as [|d s IH]; simpl; [done|].
  destruct (isWhiteSpace d) eqn:E; [done|]. by intros [= <- _].
Qed.

Lemma trimEnd_idem s : trimEnd (trimEnd s) = trimEnd s.
Proof. unfold trimEnd. by rewrite rev_involutive, trimStart_idem. Qed.

Lemma trim_idem s : trim (trim s) = trim s.
Proof.
  unfold trim. destruct (trimStart s) as [|c u] eqn:E; [done|].
  destruct (trimEnd_cons_nonws c u (trimStart_head _ _ _ E)) as [v Hv].
  rewrite Hv. simpl. rewrite (trimStart_head _ _ _ E).
  by rewrite <- Hv, trimEnd_idem.
Qed.

Lemma trimEnd_nil_iff s : trimEnd s = [] ↔ forallb isWhiteSpace s = true.
Proof.
  unfold trimEnd. rewrite <- (rev_involutive []). simpl.
  split.
  - intros H. apply (f_equal (@rev N)) in H. rewrite rev_involutive in H.
    simpl in H. apply trimStart_nil_iff in H.
    rewrite forallb_forall in *. intros x Hx. apply H, in_rev.
    by rewrite rev_involutive.
  - intros H. enough (trimStart (rev s) = []) as -> by done.
    apply trimStart_nil_iff. rewrite forallb_forall in *.
    intros x Hx. by apply H, in_rev.
Qed.

(** A code trims to nothing exactly when it is empty or all blank. *)
Lemma trim_nil_iff s : trim s = [] ↔ forallb isWhiteSpace s = true.
Proof.
  unfold trim. rewrite trimEnd_nil_iff. split.
  - intros H. induction s as [|c s IH]; simpl in *; [done|].
    destruct (isWhiteSpace c) eqn:E; simpl; [by apply IH|].
    simpl in H. by rewrite E in H.
  - intros H. induction s as [|c s IH]; simpl in *; [done|].
    apply andb_true_iff in H as [-> H]. by apply IH.
Qed.

Lemma trimStart_ws_app l x :
  forallb isWhiteSpace l = true → trimStart (l ++ x) = trimStart x.
Proof.
  induction l as [|c l IH]; simpl; [done|].
  intros H. apply andb_true_iff in H as [-> H]. by apply IH.
Qed.

Lemma trimEnd_app_ws x r :
  forallb isWhiteSpace r = true → trimEnd (x ++ r) = trimEnd x.
Proof.
  intros H. unfold trimEnd. rewrite rev_app_distr, trimStart_ws_app; [done|].
  rewrite forallb_forall in *. intros c Hc. by apply H, in_rev.
Qed.

Lemma trimStart_app_nonnil s r :
  trimStart s ≠ [] → trimStart (s ++ r) = trimStart s ++ r.
Proof.
  induction s as [|c s IH]; simpl; [done|].
  destruct (isWhiteSpace c); [done|]. by intros _.
Qed.

Lemma trim_padding l s r :
  forallb isWhiteSpace l = true → forallb isWhiteSpace r = true →
  trim (l ++ s ++ r) = trim s.
Proof.
  intros Hl Hr. unfold trim. rewrite trimStart_ws_app by done.
  destruct (trimStart s) as [|c u] eqn:E.
  - apply trimStart_nil_iff in E.
    assert (Hall : forallb isWhiteSpace (s ++ r) = true)
      by (rewrite forallb_app; by apply andb_true_iff).
    apply trimStart_nil_iff in Hall. by rewrite Hall.
  - rewrite trimStart_app_nonnil by (by rewrite E).
    rewrite E. by apply trimEnd_app_ws.
Qed.

(** What [trim] removes is white space at both ends, and nothing else. *)
Lemma trimStart_split s :
  ∃ l, s = l ++ trimStart s ∧ forallb isWhiteSpace l = true.
Proof.
  induction s as [|c s (l & IH & Hl)]; [by exists []|]. simpl.
  destruct (isWhiteSpace c) eqn:E; [|by exists []].
  exists (c :: l). simpl. rewrite E, Hl. split; [by f_equal|done].
Qed.

Lemma trimEnd_split s :
  ∃ r, s = trimEnd s ++ r ∧ forallb isWhiteSpace r = true.
Proof.
  destruct (trimStart_split (rev s)) as (l & Hs & Hl).
  exists (rev l). split.
  - unfold trimEnd. rewrite <- rev_app_distr, <- Hs. by rewrite rev_involutive.
  - rewrite forallb_forall in *. intros c Hc. by apply Hl, in_rev.
Qed.

Lemma trim_split s :
  ∃ l r, s = l ++ trim s ++ r
         ∧ forallb isWhiteSpace l = true ∧ forallb isWhiteSpace r = true.
Proof.
  destruct (trimStart_split s) as (l & Hs & Hl).
  destruct (trimEnd_split (trimStart s)) as (r & Ht & Hr).
  exists l, r. unfold trim. by rewrite <- Ht.
Qed.

(** What [trim] leaves is empty or bare. *)
Lemma trim_bare s : trim s = [] ∨ isBare (trim s) = true.
Proof.
  unfold trim. destruct (trimStart s) as [|c u] eqn:E; [by left|right].
  pose proof (trimStart_head _ _ _ E) as Hc.
  destruct (trimEnd_cons_nonws c u Hc) as [v Hv].
  unfold isBare. rewrite Hv, <- Hv. unfold trimEnd at 1.
  rewrite rev_involutive.
  destruct (trimStart (rev (c :: u))) as [|d w] eqn:Ed.
  - unfold trimEnd in Hv. by rewrite Ed in Hv.
  - by rewrite Hc, (trimStart_head _ _ _ Ed).
Qed.

(** A bare code is left as it is. *)
Lemma trim_of_bare s : isBare s = true → trim s = s.
Proof.
  unfold isBare. destruct s as [|c u] eqn:Es; [done|].
  destruct (rev (c :: u)) as [|d w] eqn:Er; [done|].
  intros H. apply andb_true_iff in H as [Hc Hd].
  apply negb_true_iff in Hc, Hd.
  unfold trim. cbn [trimStart]. rewrite Hc.
  unfold trimEnd. rewrite Er. cbn [trimStart]. rewrite Hd, <- Er.
  by rewrite rev_involutive.
Qed.

Lemma demoLookupOperator_trim s :
  demoLookupOperator (trim s) = demoLookupOperator s.
Proof. unfold demoLookupOperator. by rewrite trim_idem. Qed.

Lemma demoLookupOperator_None s :
  demoLookupOperator s = None ↔ trim s = [].
Proof.
  unfold demoLookupOperator. destruct (trim s) eqn:E; [done|].
  split; [|done]. by repeat case_match.
Qed.

(** Case analysis on the session in place, for handlers that match on it. *)
Ltac phase_cases k :=
  let E := fresh "E" in
  destruct (state k) eqn:E; simpl; rewrite ?E; simpl; try done.

(** ** What the scanner and the render leave alone *)

Lemma state_render now k : state (render now k) = state k.
Proof. unfold render. by destruct (memoStale k). Qed.

Lemma alerts_render now k : alerts (render now k) = alerts k.
Proof. unfold render. by destruct (memoStale k). Qed.

Lemma state_stopScanner k : state (stopScanner k) = state k.
Proof. unfold stopScanner. destruct (rafRef k); simpl; by destruct (streamRef k). Qed.

Lemma state_openScanner env k : state (openScanner env k) = state k.
Proof.
  unfold openScanner.
  by destruct (hasGetUserMedia env), (cameraGrant env), (videoPresent env),
    (videoPlay env), (hasBarcodeDetector env).
Qed.

(** ** Pause and resume: the time base *)

Section TimeBase.

(** A resumed session runs from the old start shifted by the pause. *)
Lemma resume_shifts_start k now oi on w startTs produced reason pauseTs :
  state k = Paused oi on w startTs produced reason pauseTs →
  state (resume now k)
  = Running oi on w (startTs + (now - pauseTs)) produced.
Proof. intros H. unfold resume. by rewrite H. Qed.

(** The session after an event that keeps it. *)
Lemma kept_step_state k a t :
  keepsSession a = true →
  phase (state k) = running ∨ phase (state k) = paused →
  state (step k (a, t))
  = match a, state k with
    | Pause r, Running oi on w s p => Paused oi on w s p r t
    | Resume, Paused oi on w s p _ pt => Running oi on w (s + (t - pt)) p
    | Piece, Running oi on w s p => Running oi on w s (p + 1)
    | _, st => st
    end.
Proof.
  intros Ha Hph. unfold step. cbn [fst snd]. rewrite state_render.
  destruct a; try discriminate Ha; cbn [handle];
    rewrite ?state_openScanner, ?state_stopScanner;
    unfold startWork, pause, resume, addPiece; try done.
  all: destruct (selectedWO k);
    destruct (state k) eqn:E; simpl; rewrite ?E; try done;
    by destruct Hph.
Qed.

Lemma kept_step_phase k a t :
  keepsSession a = true →
  phase (state k) = running ∨ phase (state k) = paused →
  phase (state (step k (a, t))) = running
  ∨ phase (state (step k (a, t))) = paused.
Proof.
  intros Ha Hph. rewrite kept_step_state by done.
  destruct a, (state k); simpl in *; auto.
Qed.

(** Along events that keep the session, what [finishWork] would measure is
    the wall-clock span since the effective start less the time paused. *)
Lemma finishElapsed_run es : ∀ k tend,
  forallb (λ e, keepsSession e.1) es = true →
  phase (state k) = running ∨ phase (state k) = paused →
  finishElapsed tend (state (run k es))
  = (λ s, tend - s - timePaused (pausedSince (state k)) es tend)
      <$> startTsOf (state k).
Proof.
  induction es as [|[a t] es IH]; intros k tend Hkeep Hph.
  - simpl. destruct (state k); simpl in *; try (by destruct Hph);
      f_equal; lia.
  - simpl in Hkeep. apply andb_true_iff in Hkeep as [Ha Hkeep].
    change (run k ((a, t) :: es)) with (run (step k (a, t)) es).
    rewrite IH by auto using kept_step_phase.
    rewrite kept_step_state by done.
    destruct a; try discriminate Ha;
      destruct (state k); simpl in *; try (by destruct Hph);
      f_equal; lia.
Qed.

End TimeBase.

(** ** The closing summary *)

Lemma alerts_stopScanner k : alerts (stopScanner k) = alerts k.
Proof. unfold stopScanner. destruct (rafRef k); simpl; by destruct (streamRef k). Qed.

Lemma alerts_openScanner env k : alerts (openScanner env k) = alerts k.
Proof.
  unfold openScanner.
  by destruct (hasGetUserMedia env), (cameraGrant env), (videoPresent env),
    (videoPlay env), (hasBarcodeDetector env).
Qed.

Lemma alerts_loginWithCode code k : alerts (loginWithCode code k) = alerts k.
Proof. unfold loginWithCode. by destruct (demoLookupOperator code). Qed.

Lemma alerts_resetToIdle k : alerts (resetToIdle k) = alerts k.
Proof. unfold resetToIdle. simpl. apply alerts_stopScanner. Qed.

Lemma alerts_animationFrame f d k : alerts (animationFrame f d k) = alerts k.
Proof.
  unfold animationFrame, loop. case_bool_decide; [|done].
  destruct d as [|[|[raw|] bs]]; try done.
  destruct (trim raw); [done|].
  by rewrite alerts_loginWithCode, alerts_stopScanner.
Qed.

(** Only [finishWork] shows an alert. *)
Lemma alerts_handle a now k :
  a ≠ Finish → alerts (handle a now k) = alerts k.
Proof.
  intros Ha. destruct a; cbn [handle];
    rewrite ?alerts_openScanner, ?alerts_stopScanner, ?alerts_resetToIdle,
      ?alerts_animationFrame; try done.
  - unfold onRFIDEnter. by destruct (demoLookupOperator _).
  - by destruct (state k).
  - unfold startWork. by destruct (selectedWO k), (state k).
  - unfold pause. by destruct (state k).
  - unfold resume. by destruct (state k).
  - unfold addPiece. by destruct (state k).
Qed.

Lemma alerts_run_kept es : ∀ k,
  forallb (λ e, keepsSession e.1) es = true → alerts (run k es) = alerts k.
Proof.
  induction es as [|[a t] es IH]; intros k Hkeep; [done|].
  simpl in Hkeep. apply andb_true_iff in Hkeep as [Ha Hkeep].
  change (run k ((a, t) :: es)) with (run (step k (a, t)) es).
  rewrite IH by done. unfold step. rewrite alerts_render.
  apply alerts_handle. simpl in *. by intros ->.
Qed.

(** What [finishWork] does to a running or paused session. *)
Lemma finishWork_summary now k elapsedMs :
  finishElapsed now (state k) = Some elapsedMs →
  ∃ sm, alerts (finishWork now k) = alerts k ++ [sm]
        ∧ sum_elapsed sm = formatHMS elapsedMs
        ∧ sum_pph sm = Math_round (pph (runningInfo k))
        ∧ producedOf (state k) = Some (sum_produced sm)
        ∧ state (finishWork now k) = Idle.
Proof.
  unfold finishWork. destruct (state k); cbn [finishElapsed]; try done.
  all: intros [= <-]; eexists; rewrite alerts_resetToIdle.
  all: repeat split; reflexivity.
Qed.

(** C1
    Start at t0, then any number of pause/resume cycles (with pieces, ticks
    and other events that keep the session in between), then finish at t3:
    resume moves the effective start to [startTs + (now - pauseTs)], and the
    duration the closing summary prints is the wall-clock span t3 - t0 less
    the total time spent paused. *)
Theorem C1_paused_time_excised k oi on w t0 es t3 :
  state k = Authenticated oi on →
  selectedWO k = Some w →
  forallb (λ e, keepsSession e.1) es = true →
  (∀ k' now oi' on' w' startTs produced reason pauseTs,
     state k' = Paused oi' on' w' startTs produced reason pauseTs →
     startTsOf (state (resume now k')) = Some (startTs + (now - pauseTs)))
  ∧ finishElapsed t3 (state (run (step k (Start, t0)) es))
    = Some ((t3 - t0) - timePaused None es t3)
  ∧ ∃ sm, alerts (step (run (step k (Start, t0)) es) (Finish, t3))
            = alerts k ++ [sm]
          ∧ sum_elapsed sm = formatHMS ((t3 - t0) - timePaused None es t3).
Proof.
  intros Hst Hwo Hkeep.
  assert (Hstart : state (step k (Start, t0)) = Running oi on w t0 0).
  { unfold step. rewrite state_render. cbn [handle fst snd].
    unfold startWork. by rewrite Hwo, Hst. }
  assert (Hel : finishElapsed t3 (state (run (step k (Start, t0)) es))
                = Some ((t3 - t0) - timePaused None es t3)).
  { rewrite finishElapsed_run by (rewrite ?Hstart; auto). by rewrite Hstart. }
  split; [|split; [done|]].
  - intros k' now oi' on' w' startTs produced reason pauseTs Hp.
    by rewrite (resume_shifts_start _ _ _ _ _ _ _ _ _ Hp).
  - destruct (finishWork_summary t3 _ _ Hel) as (sm & Hal & Hsum & _).
    exists sm. split; [|done].
    unfold step at 1. rewrite alerts_render. cbn [handle fst snd].
    rewrite Hal, alerts_run_kept by done.
    unfold step. rewrite alerts_render. cbn [handle fst snd].
    unfold startWork. by rewrite Hwo, Hst.
Qed.

(** ** The rate *)

Section Rate.

Lemma ofZ_pos e : (0 < ofZ e)%Qc ↔ 0 < e.
Proof.
  unfold ofZ, Qclt. simpl. rewrite !Qred_correct.
  unfold Qlt. simpl. lia.
Qed.

Lemma hours_pos e : (0 < ofZ e / ofZ 3600000)%Qc ↔ 0 < e.
Proof.
  rewrite <- ofZ_pos. unfold Qcdiv.
  assert (Hc : (0 < / ofZ 3600000)%Qc) by (apply Qcinv_pos; by apply ofZ_pos).
  rewrite (Qcmult_lt_mono_pos_r 0 (ofZ e) _ Hc).
  by rewrite Qcmult_0_l.
Qed.

(** The guarded quotient of the memo, as a function of the elapsed time. *)
Lemma rate_cases now st elapsedMs produced :
  finishElapsed now st = Some elapsedMs →
  producedOf st = Some produced →
  elapsed (computeRunningInfo now st) = elapsedMs
  ∧ pph (computeRunningInfo now st)
    = if decide (0 < elapsedMs)
      then Fin (ofZ produced / (ofZ elapsedMs / ofZ 3600000))%Qc
      else Fin 0%Qc.
Proof.
  intros He Hp.
  assert (Hinfo : ∀ e,
    (if decide (0 < ofZ e / ofZ 3600000)%Qc
     then js_div (ofZ produced) (ofZ e / ofZ 3600000)%Qc
     else Fin 0%Qc)
    = if decide (0 < e)
      then Fin (ofZ produced / (ofZ e / ofZ 3600000))%Qc
      else Fin 0%Qc).
  { intros e. destruct (decide (0 < e)) as [Hpos|Hneg].
    - rewrite decide_True by by apply hours_pos.
      unfold js_div. rewrite decide_False; [done|].
      intros E. apply hours_pos in Hpos.
      by apply Qclt_not_eq in Hpos.
    - rewrite decide_False; [done|]. by rewrite hours_pos. }
  destruct st; simpl in *; try done.
  all: injection He as <-; injection Hp as <-; split; [done|].
  all: apply Hinfo.
Qed.

End Rate.

(** C6
    For a running or paused session and any render time, with
    [elapsed = asOf - startTs] ([asOf] the pause reading when paused, the
    render's clock otherwise) and [hours = elapsed / 3600000]: the rate is
    [produced / hours] when [hours > 0], exactly 0 when [hours <= 0] (so at
    [elapsed = 0]), and in no case NaN or an infinity. *)
Theorem C6_rate_guarded now oi on w startTs produced :
  let holds (elapsedMs : Z) (info : RunningInfo) :=
    let hours := (ofZ elapsedMs / ofZ 3600000)%Qc in
    elapsed info = elapsedMs
    ∧ ((0 < hours)%Qc → pph info = Fin (ofZ produced / hours)%Qc)
    ∧ ((hours ≤ 0)%Qc → pph info = Fin 0%Qc)
    ∧ (elapsedMs = 0 → pph info = Fin 0%Qc)
    ∧ isFinite (pph info) = true in
  holds (now - startTs)
    (computeRunningInfo now (Running oi on w startTs produced))
  ∧ ∀ reason pauseTs,
      holds (pauseTs - startTs)
        (computeRunningInfo now
           (Paused oi on w startTs produced reason pauseTs)).
Proof.
  assert (H : ∀ st e, finishElapsed now st = Some e →
                      producedOf st = Some produced →
    elapsed (computeRunningInfo now st) = e
    ∧ ((0 < ofZ e / ofZ 3600000)%Qc →
       pph (computeRunningInfo now st)
       = Fin (ofZ produced / (ofZ e / ofZ 3600000))%Qc)
    ∧ ((ofZ e / ofZ 3600000 ≤ 0)%Qc →
       pph (computeRunningInfo now st) = Fin 0%Qc)
    ∧ (e = 0 → pph (computeRunningInfo now st) = Fin 0%Qc)
    ∧ isFinite (pph (computeRunningInfo now st)) = true).
  { intros st e He Hp. destruct (rate_cases now st e produced He Hp) as [-> ->].
    split; [done|]. case_decide as Hpos.
    - repeat split; try done; [|intros ->; exfalso; lia].
      intros Hle. apply Qcle_not_lt in Hle. destruct Hle.
      by apply (proj2 (hours_pos e)).
    - repeat split; try done. intros Hh.
      by apply (proj1 (hours_pos e)) in Hh. }
  split; [|intros reason pauseTs]; by apply H.
Qed.

(** ** Session transitions *)

(** C8
    startWork needs the Authenticated phase and a selected work order; then
    the session runs from [now] with nothing produced, for the authenticated
    operator and that order.  In any other phase, or with no order selected,
    it changes nothing. *)
Theorem C8_startWork now k :
  (∀ oi on w,
     state k = Authenticated oi on → selectedWO k = Some w →
     state (startWork now k) = Running oi on w now 0)
  ∧ (phase (state k) ≠ authenticated ∨ selectedWO k = None →
     startWork now k = k).
Proof.
  unfold startWork. split.
  - intros oi on w -> ->. done.
  - intros [Hph | ->]; [|done].
    destruct (selectedWO k); [|done]. by destruct (state k).
Qed.

Section Produced.

Lemma state_onRFIDEnter k :
  state (onRFIDEnter k) = state k
  ∨ ∃ oi on, state (onRFIDEnter k) = Authenticated oi on.
Proof.
  unfold onRFIDEnter. destruct (demoLookupOperator _); [right|left]; eauto.
Qed.

Lemma state_loginWithCode code k :
  state (loginWithCode code k) = state k
  ∨ ∃ oi on, state (loginWithCode code k) = Authenticated oi on.
Proof.
  unfold loginWithCode. destruct (demoLookupOperator _); [right|left]; eauto.
Qed.

Lemma state_animationFrame f d k :
  state (animationFrame f d k) = state k
  ∨ ∃ oi on, state (animationFrame f d k) = Authenticated oi on.
Proof.
  unfold animationFrame, loop. case_bool_decide; [|by left].
  destruct d as [|[|[raw|] bs]]; try by left.
  destruct (trim raw) as [|c raw'] eqn:E; [by left|].
  destruct (state_loginWithCode (c :: raw')
              (stopScanner (setPendingFrames (pendingFrames k ∖ {[f]}) k)))
    as [Hs|Hs]; [left|right]; [|done].
  by rewrite Hs, state_stopScanner.
Qed.

Lemma state_finishWork now k :
  state (finishWork now k) = state k ∨ state (finishWork now k) = Idle.
Proof.
  unfold finishWork.
  destruct (state k) eqn:E; [left|left|right|right]; simpl; by rewrite ?E.
Qed.

(** One event: a count that exists before and after did not decrease, and
    a count that appears was set to 0 by Start. *)
Lemma produced_step k a now :
  match producedOf (state k), producedOf (state (step k (a, now))) with
  | Some p, Some p' => p ≤ p' ≤ p + 1
  | None, Some p' => p' = 0 ∧ a = Start
  | _, None => True
  end.
Proof.
  unfold step. cbn [fst snd]. rewrite state_render.
  destruct a; cbn [handle];
    rewrite ?state_openScanner, ?state_stopScanner.
  - simpl. destruct (producedOf (state k)); [lia|done].
  - destruct (state_onRFIDEnter k) as [->|(? & ? & ->)];
      [|by destruct (producedOf _)].
    destruct (producedOf (state k)); [lia|done].
  - destruct (producedOf (state k)); [lia|done].
  - destruct (producedOf (state k)); [lia|done].
  - destruct (state_animationFrame f d k) as [->|(? & ? & ->)];
      [|by destruct (producedOf _)].
    destruct (producedOf (state k)); [lia|done].
  - phase_cases k; lia.
  - unfold startWork. destruct (selectedWO k); phase_cases k; lia.
  - unfold pause. phase_cases k; lia.
  - unfold resume. phase_cases k; lia.
  - unfold addPiece. phase_cases k; lia.
  - destruct (state_finishWork now k) as [->| ->];
      [|by destruct (producedOf _)].
    destruct (producedOf (state k)); [lia|done].
  - by destruct (producedOf _).
  - simpl. destruct (producedOf (state k)); [lia|done].
  - destruct (producedOf (state k)); [lia|done].
Qed.

(** Within one running or paused lineage the count only grows. *)
Lemma produced_lineage es : ∀ k p,
  producedOf (state k) = Some p →
  forallb (λ e, keepsSession e.1) es = true →
  ∃ p', producedOf (state (run k es)) = Some p' ∧ p ≤ p'.
Proof.
  induction es as [|[a t] es IH]; intros k p Hp Hkeep.
  - exists p. split; [done|lia].
  - simpl in Hkeep. apply andb_true_iff in Hkeep as [Ha Hkeep].
    change (run k ((a, t) :: es)) with (run (step k (a, t)) es).
    assert (Hph : phase (state k) = running ∨ phase (state k) = paused)
      by (destruct (state k); simpl in *; auto; discriminate).
    pose proof (produced_step k a t) as Hstep. rewrite Hp in Hstep.
    pose proof (kept_step_phase k a t Ha Hph) as Hph'.
    destruct (producedOf (state (step k (a, t)))) as [q|] eqn:Hq.
    + destruct (IH _ q Hq Hkeep) as (p' & Hp' & Hle).
      exists p'. split; [done|lia].
    + destruct (state (step k (a, t))); simpl in *;
        try discriminate; by destruct Hph'.
Qed.

End Produced.

(** C9
    addPiece adds exactly 1 to the count of a running session, however
    large the count, and changes nothing else: operator, order and start
    reading stay, and so does every other part of the component; [n] pieces
    in a row add [n].  In any other phase it changes nothing at all.  Along
    every sequence of events a piece booked while running moves the count
    by exactly 1 and one booked otherwise leaves the session alone; the
    count never decreases from one state to the next while the session
    lasts, grows within a lineage, and a count that appears is the 0 set by
    Start. *)
Theorem C9_produced_count k :
  (∀ oi on w startTs produced,
     state k = Running oi on w startTs produced →
     state (addPiece k) = Running oi on w startTs (produced + 1)
     ∧ producedOf (state (addPiece k)) = Some (produced + 1)
     ∧ addPiece k = setState (Running oi on w startTs (produced + 1)) k
     ∧ rfidBuffer (addPiece k) = rfidBuffer k
     ∧ selectedWO (addPiece k) = selectedWO k
     ∧ tick (addPiece k) = tick k
     ∧ scanOpen (addPiece k) = scanOpen k
     ∧ scanError (addPiece k) = scanError k
     ∧ streamRef (addPiece k) = streamRef k
     ∧ rafRef (addPiece k) = rafRef k
     ∧ liveStreams (addPiece k) = liveStreams k
     ∧ pendingFrames (addPiece k) = pendingFrames k
     ∧ alerts (addPiece k) = alerts k
     ∧ (∀ n : nat,
          state (Nat.iter n addPiece k)
          = Running oi on w startTs (produced + Z.of_nat n))
     ∧ (∀ now,
          state (step k (Piece, now))
          = Running oi on w startTs (produced + 1)))
  ∧ (phase (state k) ≠ running → addPiece k = k)
  ∧ (∀ es a now,
       match producedOf (state (run k es)),
             producedOf (state (step (run k es) (a, now))) with
       | Some p, Some p' => p ≤ p' ≤ p + 1
       | None, Some p' => p' = 0 ∧ a = Start
       | _, None => True
       end)
  ∧ (∀ es now p,
       phase (state (run k es)) = running →
       producedOf (state (run k es)) = Some p →
       producedOf (state (step (run k es) (Piece, now))) = Some (p + 1))
  ∧ (∀ es now,
       phase (state (run k es)) ≠ running →
       state (step (run k es) (Piece, now)) = state (run k es))
  ∧ (∀ es p,
       producedOf (state k) = Some p →
       forallb (λ e, keepsSession e.1) es = true →
       ∃ p', producedOf (state (run k es)) = Some p' ∧ p ≤ p').
Proof.
  split; [|split; [|split; [|split; [|split]]]].
  - intros oi on w startTs produced H.
    assert (Hadd : addPiece k
                   = setState (Running oi on w startTs (produced + 1)) k)
      by (unfold addPiece; by rewrite H).
    rewrite Hadd. repeat split.
    + intros n. induction n as [|n IH].
      * simpl. rewrite H. f_equal. lia.
      * rewrite Nat.iter_succ. unfold addPiece at 1. rewrite IH.
        cbn [state setState]. f_equal. lia.
    + intros now. unfold step. cbn [handle fst snd].
      by rewrite state_render, Hadd.
  - intros H. unfold addPiece. by destruct (state k).
  - intros es a now. apply produced_step.
  - intros es now p Hph Hp. unfold step. cbn [handle fst snd].
    rewrite state_render. unfold addPiece.
    revert Hph Hp. destruct (state (run k es)); try done.
    simpl. by intros _ [= ->].
  - intros es now Hph. unfold step. cbn [handle fst snd].
    rewrite state_render. unfold addPiece.
    revert Hph. by destruct (state (run k es)) eqn:E; simpl; rewrite ?E.
  - intros es p. apply produced_lineage.
Qed.

(** C10
    Enter clears the buffer in every case.  A buffer that trims to nothing
    (empty or all blank) changes nothing else: the session stays as it was,
    Idle staying Idle.  Otherwise what is handed to the login is the buffer
    without the white space at its two ends, and without anything else
    removed: the buffer is that code between two runs of white space, the
    code itself neither starts nor ends with white space, and the operator
    authenticated is the one of that code, exactly as loginWithCode on it
    authenticates. *)
Theorem C10_terminator k :
  rfidBuffer (onRFIDEnter k) = []
  ∧ (trim (rfidBuffer k) = [] ↔ forallb isWhiteSpace (rfidBuffer k) = true)
  ∧ (trim (rfidBuffer k) = [] →
     onRFIDEnter k = setRfidBuffer [] k
     ∧ state (onRFIDEnter k) = state k
     ∧ (state k = Idle → state (onRFIDEnter k) = Idle))
  ∧ (trim (rfidBuffer k) ≠ [] →
     ∃ op, demoLookupOperator (trim (rfidBuffer k)) = Some op
           ∧ state (onRFIDEnter k) = Authenticated (op_id op) (op_name op))
  ∧ (∃ l r, rfidBuffer k = l ++ trim (rfidBuffer k) ++ r
            ∧ forallb isWhiteSpace l = true
            ∧ forallb isWhiteSpace r = true
            ∧ (trim (rfidBuffer k) = [] ∨ isBare (trim (rfidBuffer k)) = true))
  ∧ (∀ l code r,
       rfidBuffer k = l ++ code ++ r →
       forallb isWhiteSpace l = true → forallb isWhiteSpace r = true →
       isBare code = true →
       trim (rfidBuffer k) = code
       ∧ onRFIDEnter k = loginWithCode code k
       ∧ rfidBuffer (onRFIDEnter k) = []
       ∧ state (onRFIDEnter k)
         = if bool_decide (code = lit "000000001")
              || bool_decide (toLowerCase code = lit "ahmet")
           then Authenticated (lit "op-1") (lit "Ahmet")
           else if bool_decide (code = lit "000000002")
                   || bool_decide (toLowerCase code = lit "lider")
           then Authenticated (lit "op-2") (lit "Lider")
           else Authenticated (lit "op-x")
                  (lit "Operat" ++ [246%N] ++ lit "r (" ++ code ++ lit ")")).
Proof.
  split; [|split; [apply trim_nil_iff|split; [|split; [|split]]]].
  - unfold onRFIDEnter. by destruct (demoLookupOperator _).
  - intros H. apply demoLookupOperator_None in H.
    unfold onRFIDEnter. rewrite H. simpl. auto.
  - intros H. rewrite demoLookupOperator_trim. unfold onRFIDEnter.
    destruct (demoLookupOperator (rfidBuffer k)) as [op|] eqn:E.
    + by exists op.
    + by apply demoLookupOperator_None in E.
  - destruct (trim_split (rfidBuffer k)) as (l & r & Hs & Hl & Hr).
    exists l, r. repeat split; try done. apply trim_bare.
  - intros l code r Hbuf Hl Hr Hbare.
    assert (Hcode : trim code = code) by by apply trim_of_bare.
    assert (Htrim : trim (rfidBuffer k) = code)
      by (by rewrite Hbuf, trim_padding).
    assert (Hlook : demoLookupOperator (rfidBuffer k) = demoLookupOperator code)
      by (unfold demoLookupOperator; by rewrite Htrim, Hcode).
    split; [done|].
    unfold onRFIDEnter, loginWithCode. rewrite Hlook.
    unfold demoLookupOperator. rewrite Hcode.
    destruct code as [|c u]; [done|].
    repeat split; by repeat destruct (orb _ _).
Qed.

(** Neither login path looks at the phase: whatever session is in place, a
    code that does not trim to nothing leaves Authenticated for the operator
    looked up, from the keyboard as from a decoded frame. *)
Lemma login_ignores_phase k code :
  trim code ≠ [] →
  ∃ op, demoLookupOperator code = Some op
    ∧ state (loginWithCode code k) = Authenticated (op_id op) (op_name op)
    ∧ state (onRFIDEnter (setRfidBuffer code k))
      = Authenticated (op_id op) (op_name op)
    ∧ (∀ f bs, f ∈ pendingFrames k →
         state (animationFrame f (Detected (Some code :: bs)) k)
         = Authenticated (op_id op) (op_name op)).
Proof.
  intros Hne.
  destruct (demoLookupOperator code) as [op|] eqn:E;
    [|by apply demoLookupOperator_None in E].
  exists op. repeat split.
  - unfold loginWithCode. by rewrite E.
  - unfold onRFIDEnter. simpl. by rewrite E.
  - intros f bs Hf. unfold animationFrame, loop.
    rewrite bool_decide_eq_true_2 by done.
    destruct (trim code) as [|c raw] eqn:Et; [done|].
    unfold loginWithCode. rewrite <- Et, demoLookupOperator_trim, E. done.
Qed.

(** C2
    A card read in the middle of a running session is not ignored.  Ahmet
    runs WO-1001 with one piece booked when card 000000002 is read into the
    hidden input: after Enter the session is Authenticated for Lider, the
    running session and its count are gone without a summary having been
    shown, and Ahmet's order is still the selected one.  The session
    handlers next to it do ignore a call out of phase: Start and Resume at
    the same point change nothing. *)
Theorem C2_running_session_replaced :
  let k' := step midSession (KeyEnter, 4000) in
  state midSession = Running (lit "op-1") (lit "Ahmet") WO1001 1000 1
  ∧ rfidBuffer midSession = lit "000000002"
  ∧ state k' = Authenticated (lit "op-2") (lit "Lider")
  ∧ state k' ≠ state midSession
  ∧ producedOf (state k') = None
  ∧ alerts k' = []
  ∧ selectedWO k' = Some WO1001
  ∧ handle Start 4000 midSession = midSession
  ∧ handle Resume 4000 midSession = midSession.
Proof. by vm_compute. Qed.

(** ** Finishing *)

Section Finish.

(** What [formatHMS] prints is a clock reading of a non-negative number of
    whole seconds. *)
Lemma hmsParts_nonneg ms :
  let '(hh, mm, ss) := hmsParts ms in
  0 ≤ hh ∧ 0 ≤ mm < 60 ∧ 0 ≤ ss < 60
  ∧ hh * 3600 + mm * 60 + ss = Z.max 0 (ms / 1000).
Proof.
  unfold hmsParts. set (s := Z.max 0 (ms / 1000)).
  assert (Hs : 0 ≤ s) by lia.
  rewrite !Z.rem_mod_nonneg by lia.
  pose proof (Z.mod_pos_bound s 3600). pose proof (Z.mod_pos_bound s 60).
  pose proof (Z.div_mod s 3600). pose proof (Z.div_mod (s `mod` 3600) 60).
  assert (s `mod` 60 = (s `mod` 3600) `mod` 60).
  { replace 3600 with (60 * 60) by done.
    rewrite Z.rem_mul_r by lia.
    rewrite (Z.mul_comm 60 ((s `div` 60) `mod` 60)), Z.mod_add by lia.
    by rewrite Z.mod_mod by lia. }
  pose proof (Z.div_pos s 3600).
  pose proof (Z.div_pos (s `mod` 3600) 60).
  pose proof (Z.div_lt_upper_bound (s `mod` 3600) 60 60).
  repeat split; try lia.
Qed.

(** A handler that leaves the memo fresh did not touch the session. *)
Lemma handle_fresh_state a now k :
  memoStale k = false → memoStale (handle a now k) = false →
  state (handle a now k) = state k.
Proof.
  intros Hk. destruct a; cbn [handle]; try done.
  - unfold onRFIDEnter. by destruct (demoLookupOperator _); simpl.
  - by rewrite state_openScanner.
  - by rewrite state_stopScanner.
  - unfold animationFrame, loop. case_bool_decide; [|done].
    destruct d as [|[|[raw|] bs]]; try done.
    destruct (trim raw); [done|].
    unfold loginWithCode. destruct (demoLookupOperator _); [by simpl|].
    intros _. exact (state_stopScanner _).
  - by phase_cases k.
  - unfold startWork. destruct (selectedWO k); by phase_cases k.
  - unfold pause. by phase_cases k.
  - unfold resume. by phase_cases k.
  - unfold addPiece. by phase_cases k.
  - unfold finishWork. by phase_cases k.
  - by rewrite state_stopScanner.
Qed.

(** After every event the memo is the one of some render of the session in
    place: the render of that event, or an earlier one if the event left
    session and tick alone. *)
Lemma memo_of_latest_render es :
  let k := run initial es in
  memoStale k = false
  ∧ ∃ r, runningInfo k = computeRunningInfo r (state k).
Proof.
  induction es as [|[a t] es IH] using rev_ind; simpl.
  - split; [done|]. by exists 0.
  - unfold run in *. rewrite foldl_app. simpl.
    destruct IH as [Hfresh [r Hr]].
    set (k := foldl step initial es) in *.
    unfold step, render. cbn [fst snd].
    destruct (memoStale (handle a t k)) eqn:E.
    + split; [done|]. by exists t.
    + split; [done|]. exists r.
      rewrite (handle_fresh_state a t k Hfresh E).
      rewrite <- Hr. clear -E Hfresh.
      destruct a; cbn [handle] in *; try done.
      * unfold onRFIDEnter in *. by destruct (demoLookupOperator _).
      * unfold openScanner.
        by destruct (hasGetUserMedia env), (cameraGrant env),
          (videoPresent env), (videoPlay env), (hasBarcodeDetector env).
      * unfold stopScanner. destruct (rafRef k); simpl;
          by destruct (streamRef k).
      * unfold animationFrame, loop in *. case_bool_decide; [|done].
        destruct d as [|[|[raw|] bs]]; try done.
        destruct (trim raw); [done|].
        unfold loginWithCode in *. destruct (demoLookupOperator _); [done|].
        simpl. unfold stopScanner. simpl. destruct (rafRef k); simpl;
          by destruct (streamRef k).
      * by destruct (state k).
      * unfold startWork in *. by destruct (selectedWO k), (state k).
      * unfold pause in *. by destruct (state k).
      * unfold resume in *. by destruct (state k).
      * unfold addPiece in *. by destruct (state k).
      * unfold finishWork in *. by destruct (state k).
      * unfold stopScanner. destruct (rafRef k); simpl;
          by destruct (streamRef k).
Qed.

End Finish.

(** What finishWork reports, in the two phases where it acts: operator,
    order, count and the elapsed time measured to [now] when running and to
    the pause reading when paused; the session then is Idle with nothing
    selected, whatever the count.  The printed time is a clock reading of a
    non-negative number of seconds.  The rate is rounded from the memo:
    while paused that is the rate at the pause reading, the end time of the
    duration; otherwise it is the rate at the reading of the last render
    that followed a change of session or tick. *)
Lemma finishWork_report now k :
  let finished (sm : Summary) :=
    alerts (finishWork now k) = alerts k ++ [sm]
    ∧ state (finishWork now k) = Idle
    ∧ selectedWO (finishWork now k) = None in
  (∀ oi on w startTs produced,
     state k = Running oi on w startTs produced →
     finished {| sum_opName := on; sum_wo := wo_wo w;
                 sum_produced := produced;
                 sum_elapsed := formatHMS (now - startTs);
                 sum_pph := Math_round (pph (runningInfo k)) |})
  ∧ (∀ oi on w startTs produced reason pauseTs,
       state k = Paused oi on w startTs produced reason pauseTs →
       finished {| sum_opName := on; sum_wo := wo_wo w;
                   sum_produced := produced;
                   sum_elapsed := formatHMS (pauseTs - startTs);
                   sum_pph := Math_round (pph (runningInfo k)) |})
  ∧ (phase (state k) = idle ∨ phase (state k) = authenticated →
     finishWork now k = k)
  ∧ (∀ ms, ∃ hh mm ss,
       formatHMS ms = pad2 hh ++ lit ":" ++ pad2 mm ++ lit ":" ++ pad2 ss
       ∧ 0 ≤ hh ∧ 0 ≤ mm < 60 ∧ 0 ≤ ss < 60
       ∧ hh * 3600 + mm * 60 + ss = Z.max 0 (ms / 1000))
  ∧ (∀ es, k = run initial es → phase (state k) = paused →
       runningInfo k = computeRunningInfo now (state k))
  ∧ (∀ k0 a t, k = step k0 (a, t) → memoStale (handle a t k0) = true →
       runningInfo k = computeRunningInfo t (state k)).
Proof.
  simpl. split; [|split; [|split; [|split; [|split]]]].
  - intros oi on w startTs produced E. unfold finishWork. rewrite E.
    by rewrite alerts_resetToIdle.
  - intros oi on w startTs produced reason pauseTs E.
    unfold finishWork. rewrite E. by rewrite alerts_resetToIdle.
  - unfold finishWork. intros [E|E]; by destruct (state k).
  - intros ms. pose proof (hmsParts_nonneg ms) as H. unfold formatHMS.
    destruct (hmsParts ms) as [[hh mm] ss]. by exists hh, mm, ss.
  - intros es -> Hp. destruct (memo_of_latest_render es) as [_ [r Hr]].
    rewrite Hr. revert Hp. by destruct (state (run initial es)).
  - intros k0 a t -> Hst. unfold step, render. cbn [fst snd].
    by rewrite Hst.
Qed.

(** C5
    The rate of the summary is not derived from the end time of its
    duration.  Ten pieces into a session started at 0, with the display last
    rendered by the tick at 60 s, finishing at 60.5 s prints 600 per hour,
    the memoised figure of that render, beside a duration measured to
    60.5 s, at which ten pieces make 595 per hour.  With one piece booked at
    0.5 s and no render since, finishing at 0.99 s prints 7200 where the
    rate at 0.99 s is 3636.  The other figures are as described: operator,
    order, count and duration, and the session is Idle afterwards. *)
Theorem C5_rate_is_the_rendered_one :
  state minuteIn = Running (lit "op-1") (lit "Ahmet") WO1001 0 10
  ∧ runningInfo minuteIn = computeRunningInfo 60000 (state minuteIn)
  ∧ alerts (step minuteIn (Finish, 60500))
    = [{| sum_opName := lit "Ahmet"; sum_wo := lit "WO-1001";
          sum_produced := 10; sum_elapsed := lit "00:01:00";
          sum_pph := Fin (ofZ 600) |}]
  ∧ state (step minuteIn (Finish, 60500)) = Idle
  ∧ Math_round (pph (computeRunningInfo 60500 (state minuteIn)))
    = Fin (ofZ 595)
  ∧ state firstPiece = Running (lit "op-1") (lit "Ahmet") WO1001 0 1
  ∧ runningInfo firstPiece = computeRunningInfo 500 (state firstPiece)
  ∧ alerts (step firstPiece (Finish, 990))
    = [{| sum_opName := lit "Ahmet"; sum_wo := lit "WO-1001";
          sum_produced := 1; sum_elapsed := lit "00:00:00";
          sum_pph := Fin (ofZ 7200) |}]
  ∧ state (step firstPiece (Finish, 990)) = Idle
  ∧ Math_round (pph (computeRunningInfo 990 (state firstPiece)))
    = Fin (ofZ 3636).
Proof. by vm_compute. Qed.

(** ** The camera *)

Section Camera.

(** [stopScanner] forgets both handles, after cancelling the pending frame
    and stopping the tracks of the stream they point to. *)
Lemma stopScanner_spec k :
  streamRef (stopScanner k) = None
  ∧ rafRef (stopScanner k) = None
  ∧ scanOpen (stopScanner k) = false
  ∧ liveStreams (stopScanner k) = liveStreams k ∖ held (streamRef k)
  ∧ pendingFrames (stopScanner k) = pendingFrames k ∖ held (rafRef k).
Proof.
  unfold stopScanner.
  destruct (rafRef k) as [f|] eqn:Ef, (streamRef k) as [s|] eqn:Es;
    simpl; rewrite ?Es; simpl; repeat split; try done; set_solver.
Qed.

(** A decoded, non-blank value: the capture is torn down first, the code
    is handed to the login next, and no further sample is requested. *)
Lemma loop_emits_after_teardown raw bs k :
  trim raw ≠ [] →
  loop (Detected (Some raw :: bs)) k = loginWithCode (trim raw) (stopScanner k)
  ∧ streamRef (loop (Detected (Some raw :: bs)) k) = None
  ∧ rafRef (loop (Detected (Some raw :: bs)) k) = None
  ∧ liveStreams (loop (Detected (Some raw :: bs)) k)
    = liveStreams k ∖ held (streamRef k)
  ∧ pendingFrames (loop (Detected (Some raw :: bs)) k)
    = pendingFrames k ∖ held (rafRef k).
Proof.
  intros Hne. unfold loop. destruct (trim raw) as [|c r] eqn:E; [done|].
  destruct (stopScanner_spec k) as (Hs & Hr & _ & Hl & Hp).
  unfold loginWithCode. by destruct (demoLookupOperator _).
Qed.

(** Opening never stops a stream. *)
Lemma openScanner_keeps_live env k s :
  s ∈ liveStreams k → s ∈ liveStreams (openScanner env k).
Proof.
  intros Hs. unfold openScanner.
  destruct (hasGetUserMedia env), (cameraGrant env), (videoPresent env),
    (videoPlay env), (hasBarcodeDetector env); simpl; set_solver.
Qed.

(** A granted camera is held, and live, however the rest of the opening
    goes. *)
Lemma openScanner_granted env k :
  hasGetUserMedia env = true → cameraGrant env = Resolves →
  streamRef (openScanner env k) = Some (nextHandle k)
  ∧ nextHandle k ∈ liveStreams (openScanner env k).
Proof.
  intros Hm Hg. unfold openScanner. rewrite Hm, Hg.
  destruct (videoPresent env), (videoPlay env), (hasBarcodeDetector env);
    simpl; split; set_solver.
Qed.

End Camera.

(** resetToIdle, whatever the phase: the session is Idle, no work order is
    selected, the buffer is empty, no count is left; both scanner handles
    are forgotten, the stream that was held has its tracks stopped and the
    frame that was requested is cancelled.  Nothing stays open when the
    refs held everything that was open. *)
Lemma resetToIdle_spec k :
  state (resetToIdle k) = Idle
  ∧ selectedWO (resetToIdle k) = None
  ∧ rfidBuffer (resetToIdle k) = []
  ∧ producedOf (state (resetToIdle k)) = None
  ∧ operatorNameOf (state (resetToIdle k)) = None
  ∧ scanOpen (resetToIdle k) = false
  ∧ streamRef (resetToIdle k) = None
  ∧ rafRef (resetToIdle k) = None
  ∧ (∀ s, streamRef k = Some s → s ∉ liveStreams (resetToIdle k))
  ∧ (∀ f, rafRef k = Some f → f ∉ pendingFrames (resetToIdle k))
  ∧ (liveStreams k ⊆ held (streamRef k) → liveStreams (resetToIdle k) = ∅)
  ∧ (pendingFrames k ⊆ held (rafRef k) → pendingFrames (resetToIdle k) = ∅).
Proof.
  destruct (stopScanner_spec k) as (Hs & Hr & Ho & Hl & Hp).
  unfold resetToIdle. cbn [state selectedWO rfidBuffer scanOpen streamRef rafRef
    liveStreams pendingFrames setState setRfidBuffer setSelectedWO
    producedOf operatorNameOf].
  rewrite Hs, Hr, Ho, Hl, Hp.
  repeat split; try done.
  - intros s ->. set_solver.
  - intros f ->. set_solver.
  - set_solver.
  - set_solver.
Qed.

(** C3
    An opening that fails after the camera was granted, here for want of
    BarcodeDetector, returns with the stream still held and its tracks
    live: only the error is recorded, no sample is requested, and the
    dialog stays open. *)
Theorem C3_failed_open_keeps_camera :
  let k := openScanner envNoDetector initial in
  streamRef k = Some 1%positive
  ∧ 1%positive ∈ liveStreams k
  ∧ rafRef k = None
  ∧ pendingFrames k = ∅
  ∧ scanOpen k = true
  ∧ is_Some (scanError k)
  ∧ liveStreams initial = ∅.
Proof.
  simpl. repeat split; done.
Qed.

(** C4
    A second opening while a capture is active: a second stream is
    acquired and takes the place of the first in the ref, the first keeps
    its tracks live, and a second sampling chain is requested.  What
    stopScanner can reach afterwards is the second stream only. *)
Theorem C4_second_open_leaks_first :
  let k1 := openScanner envOk initial in
  let k2 := openScanner envOk k1 in
  streamRef k1 = Some 1%positive
  ∧ liveStreams k1 = {[1%positive]}
  ∧ streamRef k2 = Some 3%positive
  ∧ liveStreams k2 = {[1%positive; 3%positive]}
  ∧ pendingFrames k2 = {[2%positive; 4%positive]}
  ∧ streamRef (stopScanner k2) = None
  ∧ liveStreams (stopScanner k2) = {[1%positive]}
  ∧ pendingFrames (stopScanner k2) = {[2%positive]}.
Proof.
  repeat split; by vm_compute.
Qed.

(** C7
    A reset does not end every open capture.  After Scan Barcode was
    activated twice, two streams are live and two sampling chains pending,
    and the refs hold the second of each.  Logging out then leaves the
    session Idle with no order, buffer or handle left, as it should, but
    stops the second stream only: the first stays live and its sampling
    chain pending.  That chain goes on sampling after the reset, and a
    code it decodes logs an operator in. *)
Theorem C7_reset_misses_leaked_capture :
  let k := resetToIdle twiceOpened in
  state twiceOpened = Authenticated (lit "op-1") (lit "Ahmet")
  ∧ streamRef twiceOpened = Some 3%positive
  ∧ rafRef twiceOpened = Some 4%positive
  ∧ liveStreams twiceOpened = {[1%positive; 3%positive]}
  ∧ pendingFrames twiceOpened = {[2%positive; 4%positive]}
  ∧ state k = Idle
  ∧ selectedWO k = None
  ∧ rfidBuffer k = []
  ∧ scanOpen k = false
  ∧ streamRef k = None
  ∧ rafRef k = None
  ∧ liveStreams k = {[1%positive]}
  ∧ pendingFrames k = {[2%positive]}
  ∧ liveStreams (step twiceOpened (Logout, 400)) = {[1%positive]}
  ∧ pendingFrames (step twiceOpened (Logout, 400)) = {[2%positive]}
  ∧ pendingFrames (animationFrame 2 DetectThrows k) = {[5%positive]}
  ∧ state (animationFrame 2 (Detected [Some (lit "000000002")]) k)
    = Authenticated (lit "op-2") (lit "Lider").
Proof.
  repeat split; by vm_compute.
Qed.

(** ** The properties at sample sessions *)

(** Start at 0 s, pause from 10 s to 15 s, finish at 20 s: the fifteen
    seconds of work are measured and printed. *)
Lemma C1_witness :
  finishElapsed 20000
    (state (run (step readyToStart (Start, 0))
              [(Pause Break, 10000); (Resume, 15000)]))
  = Some 15000
  ∧ ∃ sm,
      alerts (step (run (step readyToStart (Start, 0))
                      [(Pause Break, 10000); (Resume, 15000)])
                (Finish, 20000))
      = alerts readyToStart ++ [sm]
      ∧ sum_elapsed sm = lit "00:00:15".
Proof.
  exact (proj2 (C1_paused_time_excised readyToStart (lit "op-1") (lit "Ahmet")
                  WO1001 0 [(Pause Break, 10000); (Resume, 15000)] 20000
                  eq_refl eq_refl eq_refl)).
Defined.

Lemma C6_witness :
  pph (computeRunningInfo 1800000
         (Running (lit "op-1") (lit "Ahmet") WO1001 0 45))
  = Fin (ofZ 45 / (ofZ 1800000 / ofZ 3600000))%Qc.
Proof.
  apply (proj1 (C6_rate_guarded 1800000 (lit "op-1") (lit "Ahmet") WO1001 0 45)).
  reflexivity.
Defined.

Lemma C8_witness :
  state (startWork 1000 readyToStart)
  = Running (lit "op-1") (lit "Ahmet") WO1001 1000 0.
Proof.
  apply (proj1 (C8_startWork 1000 readyToStart)); reflexivity.
Defined.

Lemma C9_witness :
  state (addPiece midSession)
  = Running (lit "op-1") (lit "Ahmet") WO1001 1000 (1 + 1)
  ∧ producedOf (state (addPiece midSession)) = Some (1 + 1)
  ∧ (∀ n : nat,
       state (Nat.iter n addPiece midSession)
       = Running (lit "op-1") (lit "Ahmet") WO1001 1000 (1 + Z.of_nat n)).
Proof.
  destruct (proj1 (C9_produced_count midSession)
              (lit "op-1") (lit "Ahmet") WO1001 1000 1 eq_refl)
    as (Hs & Hp & _ & _ & _ & _ & _ & _ & _ & _ & _ & _ & _ & Hn & _).
  split; [exact Hs|split; [exact Hp|exact Hn]].
Defined.

(** A blank buffer, and the code 4711 typed between blanks. *)
Lemma C10_witness :
  let blank := setRfidBuffer (lit "   ") initial in
  let k := setRfidBuffer (lit "  4711 ") midSession in
  (onRFIDEnter blank = setRfidBuffer [] blank
   ∧ state (onRFIDEnter blank) = Idle)
  ∧ trim (rfidBuffer k) = lit "4711"
  ∧ onRFIDEnter k = loginWithCode (lit "4711") k
  ∧ rfidBuffer (onRFIDEnter k) = []
  ∧ state (onRFIDEnter k)
    = Authenticated (lit "op-x") (lit "Operat" ++ [246%N] ++ lit "r (4711)").
Proof.
  split.
  - destruct (C10_terminator (setRfidBuffer (lit "   ") initial))
      as (_ & _ & H & _).
    destruct (H eq_refl) as (H1 & _ & H3). split; [exact H1|exact (H3 eq_refl)].
  - destruct (C10_terminator (setRfidBuffer (lit "  4711 ") midSession))
      as (_ & _ & _ & _ & _ & H).
    exact (H (lit "  ") (lit "4711") (lit " ") eq_refl eq_refl eq_refl eq_refl).
Defined.

(** * More of the component *)

(** ** The phase graph *)

(** X1
    One event moves the phase along an edge of the graph the handlers
    implement, or leaves it: Running is entered from Authenticated by Start
    and from Paused by Resume only, Paused from Running by Pause only, Idle
    by Finish (from Running or Paused) and by logout, Authenticated by a
    code read only. *)
Theorem phase_graph k a now :
  let p := phase (state k) in
  let p' := phase (state (step k (a, now))) in
  p' = p
  ∨ (a = Start ∧ p = authenticated ∧ p' = running)
  ∨ ((∃ r, a = Pause r) ∧ p = running ∧ p' = paused)
  ∨ (a = Resume ∧ p = paused ∧ p' = running)
  ∨ (a = Finish ∧ (p = running ∨ p = paused) ∧ p' = idle)
  ∨ (a = Logout ∧ p' = idle)
  ∨ ((a = KeyEnter ∨ ∃ f d, a = AnimationFrame f d) ∧ p' = authenticated).
Proof.
  simpl. unfold step. cbn [fst snd]. rewrite state_render.
  destruct a; cbn [handle];
    rewrite ?state_openScanner, ?state_stopScanner; auto.
  - destruct (state_onRFIDEnter k) as [->|(? & ? & ->)]; [auto|].
    do 6 right. simpl. auto.
  - destruct (state_animationFrame f d k) as [->|(? & ? & ->)]; [auto|].
    do 6 right. simpl. eauto.
  - left. by phase_cases k.
  - unfold startWork. destruct (selectedWO k); [|auto].
    phase_cases k; auto.
  - unfold pause. phase_cases k; auto. right. right. left. eauto.
  - unfold resume. phase_cases k; auto. do 3 right. left. auto.
  - unfold addPiece. phase_cases k; auto.
  - unfold finishWork. phase_cases k; auto; do 4 right; left; auto.
  - do 5 right. left. auto.
Qed.

(** ** Controls and guards *)

(** X2
    A session control is rendered and enabled exactly when its handler
    changes the session; a handler reached through a disabled or absent
    control other than logout changes nothing at all. *)
Theorem offered_iff_effective k a now :
  isSessionControl a = true →
  (offered a k = true ↔ state (handle a now k) ≠ state k)
  ∧ (offered a k = false → a ≠ Logout → handle a now k = k).
Proof.
  intros Ha. destruct a; try discriminate Ha; cbn [handle];
    unfold offered, canStart, startWork, pause, resume, addPiece, finishWork.
  - destruct (state k) eqn:E, (selectedWO k); simpl; rewrite ?E;
      (split; [split; [try done; by intros _|try done; by intros []]|done]).
  - destruct (state k) eqn:E; simpl; rewrite ?E;
      (split; [split; [try done; by intros _|try done; by intros []]|done]).
  - destruct (state k) eqn:E; simpl; rewrite ?E;
      (split; [split; [try done; by intros _|try done; by intros []]|done]).
  - destruct (state k) eqn:E; simpl; rewrite ?E;
      (split; [split; [try done|try done; by intros []]|done]).
    intros _ H. injection H. lia.
  - destruct (state k) eqn:E; simpl; rewrite ?E;
      (split; [split; [try done; by intros _|try done; by intros []]|done]).
  - split; [|done].
    change (state (resetToIdle k)) with Idle.
    destruct (state k) eqn:E; simpl; split; done.
Qed.

(** ** A session from start to finish *)

Section Lineage.

Lemma run_cons k e es : run k (e :: es) = run (step k e) es.
Proof. done. Qed.

Lemma run_snoc k es e : run k (es ++ [e]) = step (run k es) e.
Proof. unfold run. by rewrite foldl_app. Qed.

Lemma in_session_phase st :
  is_Some (producedOf st) ↔ phase st = running ∨ phase st = paused.
Proof.
  destruct st; simpl; split; try (by intros [? ?]); try (by intros [|]);
    eauto.
Qed.

End Lineage.

(** What a kept run does to operator, order and count, in one induction. *)
Lemma session_along_run es : ∀ k,
  forallb (λ e, keepsSession e.1) es = true →
  phase (state k) = running ∨ phase (state k) = paused →
  operatorNameOf (state (run k es)) = operatorNameOf (state k)
  ∧ workOrderOf (state (run k es)) = workOrderOf (state k)
  ∧ producedOf (state (run k es))
    = (λ p, p + piecesBooked (isPaused (state k)) es) <$> producedOf (state k).
Proof.
  induction es as [|[a t] es IH]; intros k Hkeep Hph.
  - repeat split. simpl.
    destruct (state k); simpl in *; try (by destruct Hph); f_equal; lia.
  - simpl in Hkeep. apply andb_true_iff in Hkeep as [Ha Hkeep].
    rewrite run_cons.
    destruct (IH (step k (a, t)) Hkeep (kept_step_phase k a t Ha Hph))
      as (-> & -> & ->).
    rewrite kept_step_state by done.
    destruct a; try discriminate Ha;
      destruct (state k); simpl in *; try (by destruct Hph);
      repeat split; f_equal; lia.
Qed.

(** X3
    Operator and work order of a session stay what Start made them, through
    any pieces, pauses, resumptions, ticks and scanner events. *)
Theorem lineage_keeps_identity k es :
  forallb (λ e, keepsSession e.1) es = true →
  phase (state k) = running ∨ phase (state k) = paused →
  operatorIdOf (state (run k es)) = operatorIdOf (state k)
  ∧ operatorNameOf (state (run k es)) = operatorNameOf (state k)
  ∧ workOrderOf (state (run k es)) = workOrderOf (state k)
  ∧ (phase (state (run k es)) = running ∨ phase (state (run k es)) = paused).
Proof.
  revert k. induction es as [|[a t] es IH]; intros k Hkeep Hph; [done|].
  simpl in Hkeep. apply andb_true_iff in Hkeep as [Ha Hkeep].
  rewrite run_cons.
  destruct (IH (step k (a, t)) Hkeep (kept_step_phase k a t Ha Hph))
    as (-> & -> & -> & Hph').
  rewrite kept_step_state by done.
  destruct a; try discriminate Ha; by destruct (state k).
Qed.

(** X4
    The count of a session is its count at the outset plus the pieces
    booked since while it was not paused: a piece booked during a pause is
    not counted, one booked while running always is. *)
Theorem produced_counts_pieces k es :
  forallb (λ e, keepsSession e.1) es = true →
  phase (state k) = running ∨ phase (state k) = paused →
  producedOf (state (run k es))
  = (λ p, p + piecesBooked (isPaused (state k)) es) <$> producedOf (state k).
Proof.
  revert k. induction es as [|[a t] es IH]; intros k Hkeep Hph.
  - simpl. destruct (state k); simpl in *; try (by destruct Hph);
      f_equal; lia.
  - simpl in Hkeep. apply andb_true_iff in Hkeep as [Ha Hkeep].
    rewrite run_cons, IH by auto using kept_step_phase.
    rewrite kept_step_state by done.
    destruct a; try discriminate Ha;
      destruct (state k); simpl in *; try (by destruct Hph);
      f_equal; lia.
Qed.

(** X5
    From the first mount on, a count is never negative. *)
Theorem produced_nonneg es p :
  producedOf (state (run initial es)) = Some p → 0 ≤ p.
Proof.
  revert p. induction es as [|[a t] es IH] using rev_ind; intros p.
  - discriminate.
  - rewrite run_snoc.
    pose proof (produced_step (run initial es) a t) as Hstep.
    intros Hp. rewrite Hp in Hstep.
    destruct (producedOf (state (run initial es))) as [q|].
    + specialize (IH q eq_refl). lia.
    + lia.
Qed.

(** ** A clock that never goes back *)

Section Clock.

Lemma timeBaseOk_mono t t' st : t ≤ t' → timeBaseOk t st → timeBaseOk t' st.
Proof. destruct st; simpl; lia. Qed.

Lemma timeBaseOk_step k a t t' :
  t ≤ t' → timeBaseOk t (state k) → timeBaseOk t' (state (step k (a, t'))).
Proof.
  intros Ht Hk. apply (timeBaseOk_mono t t' _ Ht) in Hk.
  unfold step. cbn [fst snd]. rewrite state_render.
  destruct a; cbn [handle];
    rewrite ?state_openScanner, ?state_stopScanner; try done.
  - by destruct (state_onRFIDEnter k) as [->|(? & ? & ->)].
  - by destruct (state_animationFrame f d k) as [->|(? & ? & ->)].
  - by phase_cases k.
  - unfold startWork. destruct (selectedWO k); [|done].
    revert Hk; phase_cases k; simpl; lia.
  - unfold pause. revert Hk; phase_cases k; simpl; lia.
  - unfold resume. revert Hk; phase_cases k; simpl; lia.
  - unfold addPiece. revert Hk; phase_cases k; simpl; lia.
  - by destruct (state_finishWork t' k) as [->| ->].
Qed.

Lemma timeBaseOk_run es : ∀ k t,
  clockMonotone t es = true → timeBaseOk t (state k) →
  timeBaseOk (lastReading t es) (state (run k es)).
Proof.
  induction es as [|[a t'] es IH]; intros k t Hmono Hk; [done|].
  simpl in Hmono. apply andb_true_iff in Hmono as [Ht Hmono].
  rewrite run_cons. simpl. apply IH; [done|].
  apply (timeBaseOk_step k a t t'); [lia|done].
Qed.

End Clock.

(** X6
    With a clock that never goes back, the effective start of a session
    never lies ahead of the clock and a pause reading never before the
    start: the elapsed time measured at any later reading, for the display
    as for the closing summary, is not negative, and the time printed is
    the measured one, unclamped. *)
Theorem monotone_clock_elapsed_nonneg es t0 now e :
  clockMonotone t0 es = true →
  lastReading t0 es ≤ now →
  finishElapsed now (state (run initial es)) = Some e →
  0 ≤ e
  ∧ elapsed (computeRunningInfo now (state (run initial es))) = e
  ∧ hmsParts e
    = (e / 1000 / 3600, ((e / 1000) `mod` 3600) / 60, (e / 1000) `mod` 60).
Proof.
  intros Hmono Hnow He.
  pose proof (timeBaseOk_run es initial t0 Hmono I) as Hok.
  assert (0 ≤ e ∧ elapsed (computeRunningInfo now (state (run initial es))) = e)
    as [Hpos Hel].
  { destruct (state (run initial es)); simpl in *; try done.
    all: injection He as <-; split; [lia|done]. }
  repeat split; try done.
  unfold hmsParts. rewrite Z.max_r by (apply Z.div_pos; lia).
  assert (0 ≤ e / 1000) by (apply Z.div_pos; lia).
  by rewrite !Z.rem_mod_nonneg by lia.
Qed.

(** ** Pausing and the display *)

(** X7
    Pausing freezes the display: whatever the clock then reads, elapsed time
    and rate of the paused session are the ones of the instant of the
    pause.  Resuming takes the display up where the pause froze it: [d]
    after the resumption it reads what it would have read [d] after the
    pause, and a resumption at the very reading of the pause restores the
    session as it was. *)
Theorem pause_freezes_resume_continues k reason t1 t2 d :
  phase (state k) = running →
  (∀ now, computeRunningInfo now (state (pause reason t1 k))
          = computeRunningInfo t1 (state k))
  ∧ computeRunningInfo (t2 + d) (state (resume t2 (pause reason t1 k)))
    = computeRunningInfo (t1 + d) (state k)
  ∧ state (resume t1 (pause reason t1 k)) = state k.
Proof.
  intros Hph. unfold resume, pause. phase_cases k. repeat split.
  - by replace (t2 + d - (startTs + (t2 - t1))) with (t1 + d - startTs) by lia.
  - by replace (startTs + (t1 - t1)) with startTs by lia.
Qed.

(** ** Looking an operator up *)

Section Lookup.

(** A string of code units below A is what lower-cases to it. *)
Lemma toLowerCase_below_A y : ∀ d,
  Forall (λ c, (c < 65)%N) d → toLowerCase y = d → y = d.
Proof.
  induction y as [|c y IH]; intros d Hd; simpl.
  - by intros <-.
  - destruct d as [|d0 d]; [done|]. intros [= H0 H].
    apply Forall_cons in Hd as [Hd0 Hd]. f_equal; [|by apply IH].
    destruct ((65 <=? c)%N && (c <=? 90)%N) eqn:E; [|done].
    apply andb_true_iff in E as [E1 E2].
    apply N.leb_le in E1. lia.
Qed.

End Lookup.

(** X9
    White space around a code does not matter to the lookup. *)
Theorem lookup_ignores_padding l s r :
  forallb isWhiteSpace l = true → forallb isWhiteSpace r = true →
  demoLookupOperator (l ++ s ++ r) = demoLookupOperator s.
Proof.
  intros Hl Hr. unfold demoLookupOperator. by rewrite trim_padding.
Qed.

(** X10
    The operator a code resolves to does not depend on the case of its
    ASCII letters: codes that trim and lower-case to the same string get the
    same operator id. *)
Theorem lookup_ignores_case s s' :
  toLowerCase (trim s) = toLowerCase (trim s') →
  op_id <$> demoLookupOperator s = op_id <$> demoLookupOperator s'.
Proof.
  unfold demoLookupOperator. intros Hlow.
  assert (Hdigits : ∀ d, Forall (λ c, (c < 65)%N) d → toLowerCase d = d →
            trim s = d ↔ trim s' = d).
  { intros d Hd Hfix. split; intros E; rewrite E, Hfix in Hlow.
    - symmetry in Hlow. by apply toLowerCase_below_A.
    - by apply toLowerCase_below_A. }
  assert (H1 : bool_decide (trim s = lit "000000001")
               = bool_decide (trim s' = lit "000000001")).
  { apply bool_decide_ext, Hdigits; [|done]. vm_compute. repeat constructor. }
  assert (H2 : bool_decide (trim s = lit "000000002")
               = bool_decide (trim s' = lit "000000002")).
  { apply bool_decide_ext, Hdigits; [|done]. vm_compute. repeat constructor. }
  rewrite H1, H2, Hlow.
  destruct (trim s) as [|c u], (trim s') as [|c' u']; try done.
  by repeat case_match.
Qed.

(** X11
    Codes that are not on the list get a name that embeds the trimmed
    code: two of them with the same name are the same code. *)
Theorem unlisted_names_tell_codes_apart s s' op op' :
  demoLookupOperator s = Some op → demoLookupOperator s' = Some op' →
  op_id op = lit "op-x" → op_id op' = lit "op-x" →
  op_name op = op_name op' → trim s = trim s'.
Proof.
  unfold demoLookupOperator.
  destruct (trim s) as [|c u] eqn:E, (trim s') as [|c' u'] eqn:E'; try done.
  repeat case_match; intros [= <-] [= <-]; simpl; try done.
  intros _ _ Hname.
  apply (app_inv_head (lit "Operat")), (app_inv_head [246%N]),
    (app_inv_head (lit "r (")) in Hname.
  by apply (app_inv_tail (lit ")") (c :: u) (c' :: u')).
Qed.

(** X12
    The keyboard and the barcode lead to the same login: a decoded value
    leaves the component as the same value typed and entered leaves it once
    the scanner is stopped. *)
Theorem login_paths_agree k code :
  onRFIDEnter (setRfidBuffer code k) = loginWithCode code k
  ∧ ∀ f bs,
      f ∈ pendingFrames k → trim code ≠ [] →
      animationFrame f (Detected (Some code :: bs)) k
      = onRFIDEnter
          (setRfidBuffer code
             (stopScanner (setPendingFrames (pendingFrames k ∖ {[f]}) k))).
Proof.
  split.
  - unfold onRFIDEnter, loginWithCode. simpl.
    by destruct (demoLookupOperator code).
  - intros f bs Hf Hne. unfold animationFrame, loop.
    rewrite bool_decide_eq_true_2 by done.
    destruct (trim code) as [|c u] eqn:E; [done|].
    unfold onRFIDEnter, loginWithCode. cbn [rfidBuffer setRfidBuffer].
    rewrite <- E, demoLookupOperator_trim.
    by destruct (demoLookupOperator code).
Qed.

(** ** Printing a duration *)

Section Printing.

Lemma lit_inj s s' : lit s = lit s' → s = s'.
Proof.
  unfold lit. intros H.
  rewrite <- (String.string_of_list_ascii_of_string s),
    <- (String.string_of_list_ascii_of_string s').
  f_equal. revert H.
  generalize (String.list_ascii_of_string s) (String.list_ascii_of_string s').
  induction l as [|a l IH]; intros [|a' l']; simpl; try done.
  intros [= Ha Hl]. f_equal; [|by apply IH].
  by rewrite <- (Ascii.ascii_N_embedding a), Ha, Ascii.ascii_N_embedding.
Qed.

Lemma to_int_nonnil n :
  Z.to_int n ≠ Decimal.Pos Decimal.Nil ∧ Z.to_int n ≠ Decimal.Neg Decimal.Nil.
Proof.
  destruct n as [|p|p]; simpl; split; try done; intros [= H];
    by apply Unsigned.to_uint_nonnil in H.
Qed.

Lemma toString_inj n m : toString n = toString m → n = m.
Proof.
  unfold toString. intros H. apply lit_inj in H.
  apply DecimalZ.to_int_inj.
  destruct (to_int_nonnil n) as [Hn1 Hn2], (to_int_nonnil m) as [Hm1 Hm2].
  pose proof (NilZero.isi _ Hn1 Hn2) as En.
  pose proof (NilZero.isi _ Hm1 Hm2) as Em.
  rewrite H in En. rewrite En in Em. by injection Em.
Qed.

(** A decimal numeral of an integer starts with 0 only if it is 0. *)
Lemma to_int_leading_zero n u :
  Z.to_int n = Decimal.Pos (Decimal.D0 u) → u = Decimal.Nil.
Proof.
  intros H. pose proof (DecimalZ.to_of (Z.to_int n)) as Hn.
  rewrite DecimalZ.of_to, H in Hn. simpl in Hn. injection Hn as Hn.
  unfold Decimal.unorm in Hn. simpl in Hn.
  pose proof (nb_digits_nzhead u) as Hd.
  destruct (Decimal.nzhead u) eqn:E; try done.
  - by injection Hn.
  - injection Hn as ->. simpl in Hd. lia.
Qed.

Lemma toString_nonneg n :
  0 ≤ n →
  ∃ u, u ≠ Decimal.Nil ∧ Z.to_int n = Decimal.Pos u
       ∧ toString n = lit (NilEmpty.string_of_uint u).
Proof.
  intros Hn. unfold toString. destruct n as [|p|p]; [| |lia].
  - by exists (Decimal.D0 Decimal.Nil).
  - exists (Pos.to_uint p). pose proof (Unsigned.to_uint_nonnil p) as Hp.
    repeat split; try done. simpl. by destruct (Pos.to_uint p).
Qed.

Lemma toString_nonempty n : 0 ≤ n → toString n ≠ [].
Proof.
  intros Hn. destruct (toString_nonneg n Hn) as (u & Hu & _ & ->).
  by destruct u.
Qed.

Lemma toString_leading_zero n r : 0 ≤ n → toString n = 48%N :: r → r = [].
Proof.
  intros Hn. destruct (toString_nonneg n Hn) as (u & Hu & Hint & ->).
  destruct u; try done. intros [= <-].
  by rewrite (to_int_leading_zero n u Hint).
Qed.

Lemma pad2_inj n m : 0 ≤ n → 0 ≤ m → pad2 n = pad2 m → n = m.
Proof.
  intros Hn Hm. unfold pad2, padStart2.
  pose proof (toString_nonempty n Hn) as Hne.
  pose proof (toString_nonempty m Hm) as Hme.
  pose proof (toString_leading_zero n) as Hzn.
  pose proof (toString_leading_zero m) as Hzm.
  intros H. apply toString_inj. revert H.
  destruct (toString n) as [|a [|b u]], (toString m) as [|a' [|b' u']];
    simpl; try done.
  - by intros [= ->].
  - intros [= <- <- <-]. by specialize (Hzm _ Hm eq_refl).
  - intros [= -> -> ->]. by specialize (Hzn _ Hn eq_refl).
Qed.

Lemma pad2_length n : 0 ≤ n < 100 → length (pad2 n) = 2%nat.
Proof.
  intros Hn.
  assert (Hall : forallb (λ i, Nat.eqb (length (pad2 (Z.of_nat i))) 2)
                   (seq 0 100) = true) by by vm_compute.
  rewrite forallb_forall in Hall. specialize (Hall (Z.to_nat n)).
  rewrite Z2Nat.id in Hall by lia. apply Nat.eqb_eq, Hall, in_seq. lia.
Qed.

Lemma pad2_length_ge n : (2 ≤ length (pad2 n))%nat.
Proof.
  unfold pad2, padStart2. rewrite length_app, length_replicate. lia.
Qed.

End Printing.

(** X13
    The text of a duration tells the whole seconds and nothing else: two
    durations print alike exactly when they have the same number of whole
    seconds, negative ones counting as none.  Hours are not wrapped: the
    text has at least eight code units, and exactly eight below a hundred
    hours. *)
Theorem formatHMS_tells_whole_seconds ms ms' :
  (formatHMS ms = formatHMS ms' ↔ Z.max 0 (ms / 1000) = Z.max 0 (ms' / 1000))
  ∧ (8 ≤ length (formatHMS ms))%nat
  ∧ (ms < 360000000 → length (formatHMS ms) = 8%nat)
  ∧ (ms < 1000 → formatHMS ms = lit "00:00:00").
Proof.
  assert (Hparts : ∀ x, ∃ hh mm ss,
    formatHMS x = pad2 hh ++ lit ":" ++ pad2 mm ++ lit ":" ++ pad2 ss
    ∧ 0 ≤ hh ∧ 0 ≤ mm < 60 ∧ 0 ≤ ss < 60
    ∧ hh * 3600 + mm * 60 + ss = Z.max 0 (x / 1000)).
  { intros x. pose proof (hmsParts_nonneg x) as H. unfold formatHMS.
    destruct (hmsParts x) as [[hh mm] ss]. by exists hh, mm, ss. }
  assert (Hsame : ∀ x y, Z.max 0 (x / 1000) = Z.max 0 (y / 1000) →
                         formatHMS x = formatHMS y).
  { intros x y E. unfold formatHMS, hmsParts. by rewrite E. }
  repeat split.
  - intros E.
    destruct (Hparts ms) as (hh & mm & ss & Ef & Hh & Hm & Hs & <-).
    destruct (Hparts ms') as (hh' & mm' & ss' & Ef' & Hh' & Hm' & Hs' & <-).
    rewrite Ef, Ef' in E.
    pose proof (pad2_length mm ltac:(lia)) as Lm.
    pose proof (pad2_length ss ltac:(lia)) as Ls.
    pose proof (pad2_length mm' ltac:(lia)) as Lm'.
    pose proof (pad2_length ss' ltac:(lia)) as Ls'.
    apply app_inj_2 in E as [Eh E];
      [|by rewrite !length_app, Lm, Ls, Lm', Ls'].
    apply (app_inv_head (lit ":")) in E.
    apply app_inj_1 in E as [Em E]; [|by rewrite Lm, Lm'].
    apply (app_inv_head (lit ":")) in E.
    apply pad2_inj in Eh, Em, E; lia.
  - apply Hsame.
  - destruct (Hparts ms) as (hh & mm & ss & -> & Hh & Hm & Hs & _).
    rewrite !length_app, (pad2_length mm), (pad2_length ss) by lia.
    pose proof (pad2_length_ge hh). simpl. lia.
  - intros Hlt.
    destruct (Hparts ms) as (hh & mm & ss & -> & Hh & Hm & Hs & Hsum).
    assert (ms / 1000 < 360000) by (apply Z.div_lt_upper_bound; lia).
    rewrite !length_app, (pad2_length hh), (pad2_length mm),
      (pad2_length ss) by lia.
    done.
  - intros Hlt. apply (Hsame ms 0).
    assert (ms / 1000 < 1) by (apply Z.div_lt_upper_bound; lia).
    rewrite Z.max_l by lia. done.
Qed.

(** ** The scanner *)

(** X14
    Opening always shows the dialog and never touches session, buffer,
    selection or alerts.  When every check passes the error is cleared, a
    stream is held and live, and one sample is requested; when any check
    fails a non-empty message is shown and no sample is requested. *)
Theorem openScanner_outcome env k :
  scanOpen (openScanner env k) = true
  ∧ state (openScanner env k) = state k
  ∧ rfidBuffer (openScanner env k) = rfidBuffer k
  ∧ selectedWO (openScanner env k) = selectedWO k
  ∧ alerts (openScanner env k) = alerts k
  ∧ (envWorks env = true →
     scanError (openScanner env k) = None
     ∧ ∃ s f, streamRef (openScanner env k) = Some s
              ∧ s ∈ liveStreams (openScanner env k)
              ∧ rafRef (openScanner env k) = Some f
              ∧ pendingFrames (openScanner env k) = {[f]} ∪ pendingFrames k)
  ∧ (envWorks env = false →
     (∃ m, scanError (openScanner env k) = Some m ∧ m ≠ [])
     ∧ rafRef (openScanner env k) = rafRef k
     ∧ pendingFrames (openScanner env k) = pendingFrames k).
Proof.
  unfold openScanner, envWorks, catchScanError.
  destruct (hasGetUserMedia env), (cameraGrant env) as [|[[|c m]|]],
    (videoPresent env), (videoPlay env) as [|[[|c' m']|]],
    (hasBarcodeDetector env); simpl;
    repeat split; try done; try (intros _); try (by eexists);
    try (repeat split; try done; by eexists).
  all: repeat split; try done; eexists _, _; repeat split; try done;
    set_solver.
Qed.

(** X15
    A sample that yields no code (the decoder threw, found nothing, or
    read a blank value) changes nothing but the sampling itself: the frame
    that ran is replaced by one new request, and session, buffer, stream
    and dialog stay as they were. *)
Theorem sample_without_code_resamples f d k :
  f ∈ pendingFrames k → yieldsNoCode d = true →
  state (animationFrame f d k) = state k
  ∧ rfidBuffer (animationFrame f d k) = rfidBuffer k
  ∧ streamRef (animationFrame f d k) = streamRef k
  ∧ liveStreams (animationFrame f d k) = liveStreams k
  ∧ scanOpen (animationFrame f d k) = scanOpen k
  ∧ ∃ g, rafRef (animationFrame f d k) = Some g
         ∧ pendingFrames (animationFrame f d k)
           = {[g]} ∪ pendingFrames k ∖ {[f]}.
Proof.
  intros Hf Hd. unfold animationFrame, loop.
  rewrite bool_decide_eq_true_2 by done.
  destruct d as [|[|[raw|] bs]]; simpl in *;
    try (repeat split; try done; by eexists).
  destruct (trim raw); [|done]. simpl.
  repeat split; try done; by eexists.
Qed.

Section Tracking.

Lemma tracked_stopScanner k :
  tracked k →
  tracked (stopScanner k)
  ∧ liveStreams (stopScanner k) = ∅ ∧ pendingFrames (stopScanner k) = ∅.
Proof.
  intros (Hl & Hp & _).
  destruct (stopScanner_spec k) as (Hs & Hr & Ho & Hl' & Hp').
  unfold tracked. rewrite Hs, Hr, Hl', Hp'. simpl.
  repeat split; set_solver.
Qed.

Lemma tracked_loginWithCode code k : tracked k → tracked (loginWithCode code k).
Proof. unfold loginWithCode, tracked. by destruct (demoLookupOperator _). Qed.

Lemma tracked_openScanner env k :
  tracked k → scanOpen k = false → tracked (openScanner env k).
Proof.
  intros (Hl & Hp & Hc) Hclosed. destruct (Hc Hclosed) as [Hs Hr].
  rewrite Hs in Hl. rewrite Hr in Hp. simpl in Hl, Hp.
  unfold openScanner, tracked.
  destruct (hasGetUserMedia env), (cameraGrant env), (videoPresent env),
    (videoPlay env), (hasBarcodeDetector env); simpl;
    rewrite ?Hs, ?Hr; simpl; repeat split; try done; set_solver.
Qed.

Lemma tracked_animationFrame f d k :
  tracked k → tracked (animationFrame f d k).
Proof.
  intros Hk. unfold animationFrame. case_bool_decide as Hf; [|done].
  destruct Hk as (Hl & Hp & Hc).
  assert (Hraf : rafRef k = Some f).
  { destruct (rafRef k) as [g|]; simpl in Hp; [|set_solver].
    f_equal. set_solver. }
  assert (Hopen : scanOpen k = true).
  { destruct (scanOpen k); [done|]. destruct (Hc eq_refl) as [_ Hn].
    by rewrite Hn in Hraf. }
  assert (Hk1 : tracked (setPendingFrames (pendingFrames k ∖ {[f]}) k)).
  { unfold tracked. simpl. rewrite Hraf, Hopen. repeat split; try done.
    rewrite Hraf in Hp. simpl in *. set_solver. }
  assert (Hre : tracked
    (let '(g, k') := requestAnimationFrame
                       (setPendingFrames (pendingFrames k ∖ {[f]}) k) in
     setRafRef (Some g) k')).
  { unfold tracked. simpl. rewrite Hopen. repeat split; try done.
    rewrite Hraf in Hp. simpl in *. set_solver. }
  unfold loop. destruct d as [|[|[raw|] bs]]; try done.
  destruct (trim raw); [done|].
  by apply tracked_loginWithCode, tracked_stopScanner.
Qed.

Lemma tracked_step k a t :
  tracked k →
  match a with ScanBarcode _ => scanOpen k = false | _ => True end →
  tracked (step k (a, t)).
Proof.
  intros Hk Ha. unfold step, render. cbn [fst snd].
  assert (tracked (handle a t k)) as Hh.
  { destruct a; cbn [handle]; try done.
    - unfold onRFIDEnter, tracked in *. by destruct (demoLookupOperator _).
    - by apply tracked_openScanner.
    - by apply tracked_stopScanner.
    - by apply tracked_animationFrame.
    - unfold tracked in *. by destruct (state k).
    - unfold startWork, tracked in *. by destruct (selectedWO k), (state k).
    - unfold pause, tracked in *. by destruct (state k).
    - unfold resume, tracked in *. by destruct (state k).
    - unfold addPiece, tracked in *. by destruct (state k).
    - unfold finishWork. destruct (state k); try done.
      all: unfold resetToIdle;
        match goal with
        | |- tracked (setState _ (setRfidBuffer _ (setSelectedWO _
                        (stopScanner ?x)))) =>
          assert (tracked x) as Hx by done;
          apply tracked_stopScanner in Hx as [Hx _]; exact Hx
        end.
    - unfold resetToIdle.
      apply tracked_stopScanner in Hk as [Hk _]. exact Hk.
    - by apply tracked_stopScanner.
  }
  by destruct (memoStale (handle a t k)).
Qed.

Lemma tracked_run es : ∀ k,
  tracked k → opensWhenClosed k es = true → tracked (run k es).
Proof.
  induction es as [|[a t] es IH]; intros k Hk Hes; [done|].
  simpl in Hes. apply andb_true_iff in Hes as [Ha Hes].
  rewrite run_cons. apply IH; [|done].
  apply tracked_step; [done|]. destruct a; try done.
  by apply negb_true_iff.
Qed.

End Tracking.

(** X17
    One code per capture: once a sample has yielded a code, with every
    resource tracked, nothing is live or pending any more, so that no later
    frame of the capture can run and emit again. *)
Theorem one_emission_per_capture f d k :
  tracked k → f ∈ pendingFrames k → yieldsNoCode d = false →
  liveStreams (animationFrame f d k) = ∅
  ∧ pendingFrames (animationFrame f d k) = ∅
  ∧ scanOpen (animationFrame f d k) = false
  ∧ phase (state (animationFrame f d k)) = authenticated
  ∧ ∀ f' d', animationFrame f' d' (animationFrame f d k)
             = animationFrame f d k.
Proof.
  intros Hk Hf Hd.
  assert (Hk1 : tracked (setPendingFrames (pendingFrames k ∖ {[f]}) k)).
  { destruct Hk as (Hl & Hp & Hc). unfold tracked. simpl.
    repeat split; try done; try set_solver; by apply Hc. }
  destruct (tracked_stopScanner _ Hk1) as (_ & Hl & Hp).
  destruct (stopScanner_spec (setPendingFrames (pendingFrames k ∖ {[f]}) k))
    as (_ & _ & Ho & _).
  assert (Hpend : pendingFrames (animationFrame f d k) = ∅
                  ∧ liveStreams (animationFrame f d k) = ∅
                  ∧ scanOpen (animationFrame f d k) = false
                  ∧ phase (state (animationFrame f d k)) = authenticated).
  { unfold animationFrame, loop. rewrite bool_decide_eq_true_2 by done.
    destruct d as [|[|[raw|] bs]]; try discriminate Hd. simpl in Hd.
    destruct (trim raw) as [|c u] eqn:E; [discriminate Hd|].
    unfold loginWithCode.
    destruct (demoLookupOperator (c :: u)) as [op|] eqn:Eop.
    - by simpl.
    - apply demoLookupOperator_None in Eop.
      by rewrite <- E, trim_idem, E in Eop. }
  destruct Hpend as (Hp' & Hl' & Ho' & Hph).
  repeat split; try done.
  intros f' d'. unfold animationFrame at 1.
  rewrite bool_decide_eq_false_2; [done|]. rewrite Hp'. set_solver.
Qed.

(** X18
    Stopping the scanner, and logging out, a second time changes nothing
    more; stopping leaves session, buffer, selection and the error shown
    as they are. *)
Theorem stop_and_reset_idempotent k :
  stopScanner (stopScanner k) = stopScanner k
  ∧ resetToIdle (resetToIdle k) = resetToIdle k
  ∧ state (stopScanner k) = state k
  ∧ rfidBuffer (stopScanner k) = rfidBuffer k
  ∧ selectedWO (stopScanner k) = selectedWO k
  ∧ scanError (stopScanner k) = scanError k.
Proof.
  destruct k as [buf sel st tk op err [s|] [f|] info stale live pend next al];
    by cbv [resetToIdle stopScanner].
Qed.

(** ** From login to summary *)

(** X19
    A session started by a logged-in operator on the selected order and
    finished after any pieces, pauses and resumptions is summarised under
    that operator's name and that order's code, with a count equal to the
    pieces booked while it was running; the component is then Idle with no
    order selected. *)
Theorem summary_reports_session k oi on w t0 es t3 :
  state k = Authenticated oi on →
  selectedWO k = Some w →
  forallb (λ e, keepsSession e.1) es = true →
  let k' := step (run (step k (Start, t0)) es) (Finish, t3) in
  (∃ sm, alerts k' = alerts k ++ [sm]
         ∧ sum_opName sm = on
         ∧ sum_wo sm = wo_wo w
         ∧ sum_produced sm = piecesBooked false es)
  ∧ state k' = Idle
  ∧ selectedWO k' = None.
Proof.
  intros Hst Hwo Hkeep. simpl.
  assert (Hstart : state (step k (Start, t0)) = Running oi on w t0 0).
  { unfold step. rewrite state_render. cbn [handle fst snd].
    unfold startWork. by rewrite Hwo, Hst. }
  assert (Hph : phase (state (step k (Start, t0))) = running
                ∨ phase (state (step k (Start, t0))) = paused)
    by (rewrite Hstart; auto).
  destruct (session_along_run es _ Hkeep Hph) as (Hname & Hw & Hcount).
  rewrite Hstart in Hname, Hw, Hcount. simpl in Hname, Hw, Hcount.
  assert (Hal : alerts (run (step k (Start, t0)) es) = alerts k).
  { rewrite alerts_run_kept by done. unfold step. rewrite alerts_render.
    by apply alerts_handle. }
  unfold step at 1 3 5. cbn [fst snd handle].
  unfold render.
  assert (Hgoal : ∀ kf,
    kf = finishWork t3 (run (step k (Start, t0)) es) →
    (∃ sm, alerts kf = alerts k ++ [sm] ∧ sum_opName sm = on
           ∧ sum_wo sm = wo_wo w ∧ sum_produced sm = piecesBooked false es)
    ∧ state kf = Idle ∧ selectedWO kf = None).
  { intros kf ->. unfold finishWork.
    destruct (state (run (step k (Start, t0)) es));
      try discriminate Hname; try discriminate Hw.
    all: cbn [operatorNameOf workOrderOf producedOf] in Hname, Hw, Hcount.
    all: injection Hname as ->; injection Hw as ->; injection Hcount as ->.
    all: rewrite alerts_resetToIdle; cbn [alerts alert]; rewrite Hal.
    all: split; [eexists; repeat split; eauto|done]. }
  destruct (Hgoal _ eq_refl) as (Hsm & Hidle & Hsel).
  by destruct (memoStale (finishWork t3 (run (step k (Start, t0)) es))).
Qed.

Lemma selectedWO_stopScanner k : selectedWO (stopScanner k) = selectedWO k.
Proof.
  unfold stopScanner. destruct (rafRef k); simpl; by destruct (streamRef k).
Qed.

Lemma selectedWO_openScanner env k :
  selectedWO (openScanner env k) = selectedWO k.
Proof.
  unfold openScanner.
  by destruct (hasGetUserMedia env), (cameraGrant env), (videoPresent env),
    (videoPlay env), (hasBarcodeDetector env).
Qed.

(** X20
    From the first mount on, no work order is selected while the
    component is Idle: logout and finish clear the selection, and an order
    can only be picked once an operator is logged in. *)
Theorem idle_has_no_selection es :
  state (run initial es) = Idle → selectedWO (run initial es) = None.
Proof.
  induction es as [|[a t] es IH] using rev_ind; [done|].
  rewrite run_snoc. set (k := run initial es) in *.
  unfold step, render. cbn [fst snd].
  assert (H : state (handle a t k) = Idle → selectedWO (handle a t k) = None).
  { destruct a; cbn [handle]; try done.
    - unfold onRFIDEnter. by destruct (demoLookupOperator _).
    - rewrite state_openScanner. intros Hs. rewrite <- (IH Hs).
      apply selectedWO_openScanner.
    - rewrite state_stopScanner. intros Hs. rewrite <- (IH Hs).
      apply selectedWO_stopScanner.
    - unfold animationFrame, loop. case_bool_decide; [|done].
      destruct d as [|[|[raw|] bs]]; try done.
      destruct (trim raw); [done|].
      unfold loginWithCode. destruct (demoLookupOperator _); [done|].
      set (k1 := setPendingFrames (pendingFrames k ∖ {[f]}) k).
      intros Hs. change (state (stopScanner k1) = Idle) in Hs.
      rewrite state_stopScanner in Hs.
      change (selectedWO (stopScanner k1) = None).
      rewrite selectedWO_stopScanner. exact (IH Hs).
    - by phase_cases k.
    - unfold startWork. destruct (selectedWO k) eqn:Ew; [|done].
      phase_cases k. intros _. by specialize (IH eq_refl).
    - unfold pause. by phase_cases k.
    - unfold resume. by phase_cases k.
    - unfold addPiece. by phase_cases k.
    - unfold finishWork. by phase_cases k.
    - rewrite state_stopScanner. intros Hs. rewrite <- (IH Hs).
      apply selectedWO_stopScanner. }
  by destruct (memoStale (handle a t k)).
Qed.

(** ** The display *)

(** X21
    From the first mount on, the figures on display belong to the session
    in place: they are zero while Idle or Authenticated, they are the
    figures of the pause reading while Paused, whatever the clock reads,
    and a tick at reading [t] brings them to the figures at [t] without
    touching the session. *)
Theorem display_follows_session es :
  let k := run initial es in
  (phase (state k) = idle ∨ phase (state k) = authenticated →
   runningInfo k = {| elapsed := 0; pph := Fin 0%Qc |})
  ∧ (phase (state k) = paused →
     ∀ now, runningInfo k = computeRunningInfo now (state k))
  ∧ (∀ t, runningInfo (step k (Tick, t)) = computeRunningInfo t (state k)
          ∧ state (step k (Tick, t)) = state k
          ∧ tick (step k (Tick, t)) = tick k + 1).
Proof.
  simpl. destruct (memo_of_latest_render es) as [_ [r Hr]].
  repeat split.
  - intros Hph. rewrite Hr.
    by destruct (state (run initial es)), Hph.
  - intros Hph now. rewrite Hr. by destruct (state (run initial es)).
Qed.

(** ** These properties at sample sessions *)

Lemma offered_iff_effective_witness :
  (offered Start readyToStart = true
   ↔ state (handle Start 1000 readyToStart) ≠ state readyToStart)
  ∧ (offered Start readyToStart = false → Start ≠ Logout →
     handle Start 1000 readyToStart = readyToStart).
Proof. exact (offered_iff_effective readyToStart Start 1000 eq_refl). Defined.

Lemma lineage_keeps_identity_witness :
  operatorNameOf
    (state (run midSession [(Pause Fault, 5000); (Piece, 6000); (Resume, 7000)]))
  = Some (lit "Ahmet")
  ∧ workOrderOf
      (state (run midSession [(Pause Fault, 5000); (Piece, 6000); (Resume, 7000)]))
    = Some WO1001.
Proof.
  destruct (lineage_keeps_identity midSession
              [(Pause Fault, 5000); (Piece, 6000); (Resume, 7000)]
              eq_refl (or_introl eq_refl)) as (_ & Hn & Hw & _).
  split; [exact Hn|exact Hw].
Defined.

Lemma produced_counts_pieces_witness :
  producedOf
    (state (run midSession
              [(Piece, 4000); (Pause Fault, 5000); (Piece, 6000);
               (Resume, 7000); (Piece, 8000)]))
  = Some (1 + 2).
Proof.
  exact (produced_counts_pieces midSession
           [(Piece, 4000); (Pause Fault, 5000); (Piece, 6000);
            (Resume, 7000); (Piece, 8000)]
           eq_refl (or_introl eq_refl)).
Defined.

Lemma produced_nonneg_witness :
  producedOf (state midSession) = Some 1 ∧ 0 ≤ 1.
Proof.
  split; [reflexivity|].
  exact (produced_nonneg
           [(Change (lit "ahmet"), 0); (KeyEnter, 10); (PickWO WO1001, 20);
            (Start, 1000); (Piece, 2000); (Change (lit "000000002"), 3000)]
           1 eq_refl).
Defined.

Lemma monotone_clock_elapsed_nonneg_witness :
  0 ≤ 4000
  ∧ elapsed (computeRunningInfo 5000 (state midSession)) = 4000
  ∧ hmsParts 4000 = (0, 0, 4).
Proof.
  apply (monotone_clock_elapsed_nonneg
           [(Change (lit "ahmet"), 0); (KeyEnter, 10); (PickWO WO1001, 20);
            (Start, 1000); (Piece, 2000); (Change (lit "000000002"), 3000)]
           0 5000 4000); [reflexivity|vm_compute; discriminate|reflexivity].
Defined.

Lemma pause_freezes_resume_continues_witness :
  (∀ now, computeRunningInfo now (state (pause Break 5000 midSession))
          = computeRunningInfo 5000 (state midSession))
  ∧ computeRunningInfo (9000 + 250)
      (state (resume 9000 (pause Break 5000 midSession)))
    = computeRunningInfo (5000 + 250) (state midSession)
  ∧ state (resume 5000 (pause Break 5000 midSession)) = state midSession.
Proof.
  exact (pause_freezes_resume_continues midSession Break 5000 9000 250 eq_refl).
Defined.

Lemma lookup_ignores_padding_witness :
  demoLookupOperator (lit "  " ++ lit "ahmet" ++ lit " ")
  = demoLookupOperator (lit "ahmet").
Proof.
  exact (lookup_ignores_padding (lit "  ") (lit "ahmet") (lit " ")
           eq_refl eq_refl).
Defined.

Lemma lookup_ignores_case_witness :
  op_id <$> demoLookupOperator (lit " LiDeR")
  = op_id <$> demoLookupOperator (lit "lider").
Proof. exact (lookup_ignores_case (lit " LiDeR") (lit "lider") eq_refl). Defined.

Lemma unlisted_names_tell_codes_apart_witness :
  trim (lit " 4711 ") = trim (lit "4711").
Proof.
  exact (unlisted_names_tell_codes_apart (lit " 4711 ") (lit "4711")
           {| op_id := lit "op-x";
              op_name := lit "Operat" ++ [246%N] ++ lit "r (4711)" |}
           {| op_id := lit "op-x";
              op_name := lit "Operat" ++ [246%N] ++ lit "r (4711)" |}
           eq_refl eq_refl eq_refl eq_refl eq_refl).
Defined.

Lemma sample_without_code_resamples_witness :
  state (animationFrame 2 DetectThrows scanning) = state scanning
  ∧ liveStreams (animationFrame 2 DetectThrows scanning) = liveStreams scanning
  ∧ rafRef (animationFrame 2 DetectThrows scanning) = Some 3%positive.
Proof.
  assert (Hf : 2%positive ∈ pendingFrames scanning)
    by (apply (bool_decide_unpack _); vm_compute; exact I).
  destruct (sample_without_code_resamples 2 DetectThrows scanning Hf eq_refl)
    as (Hs & _ & _ & Hl & _ & _).
  split; [exact Hs|split; [exact Hl|reflexivity]].
Defined.

Lemma one_emission_per_capture_witness :
  let k := run initial [(ScanBarcode envOk, 0)] in
  let k' := animationFrame 2 (Detected [Some (lit "ahmet")]) k in
  liveStreams k' = ∅
  ∧ pendingFrames k' = ∅
  ∧ scanOpen k' = false
  ∧ phase (state k') = authenticated
  ∧ ∀ f' d', animationFrame f' d' k' = k'.
Proof.
  assert (Hinit : tracked initial) by (unfold tracked; simpl; set_solver).
  assert (Hf : 2%positive ∈ pendingFrames (run initial [(ScanBarcode envOk, 0)]))
    by (apply (bool_decide_unpack _); vm_compute; exact I).
  exact (one_emission_per_capture 2 (Detected [Some (lit "ahmet")])
           (run initial [(ScanBarcode envOk, 0)])
           (tracked_run [(ScanBarcode envOk, 0)] initial Hinit eq_refl)
           Hf eq_refl).
Defined.

Lemma summary_reports_session_witness :
  let k' := step (run (step readyToStart (Start, 0))
                    [(Piece, 1000); (Pause Break, 2000); (Piece, 2500);
                     (Resume, 3000); (Piece, 4000)])
              (Finish, 5000) in
  (∃ sm, alerts k' = alerts readyToStart ++ [sm]
         ∧ sum_opName sm = lit "Ahmet"
         ∧ sum_wo sm = lit "WO-1001"
         ∧ sum_produced sm = 2)
  ∧ state k' = Idle
  ∧ selectedWO k' = None.
Proof.
  exact (summary_reports_session readyToStart (lit "op-1") (lit "Ahmet") WO1001
           0 [(Piece, 1000); (Pause Break, 2000); (Piece, 2500);
              (Resume, 3000); (Piece, 4000)] 5000
           eq_refl eq_refl eq_refl).
Defined.

Lemma idle_has_no_selection_witness :
  selectedWO (run initial
                [(Change (lit "ahmet"), 0); (KeyEnter, 10);
                 (PickWO WO1001, 20); (Logout, 30)]) = None.
Proof.
  exact (idle_has_no_selection
           [(Change (lit "ahmet"), 0); (KeyEnter, 10);
            (PickWO WO1001, 20); (Logout, 30)] eq_refl).
Defined.
